(** * A shallow embedding of the portfolio tracker (src/main.py)

    The tracker keeps a dictionary of [Stock] objects, asks a quote provider
    (yfinance) for a month of daily bars per symbol, derives price, value,
    daily change, a 5-day moving average with its buy signals, and saves the
    holdings to [output/portfolio.csv].

    Modelling choices, fixed once for the whole file:
    - closes and every number derived from them are IEEE binary64 values
      (numpy.float64), embedded as Rocq's primitive [float]; [nan] is the
      missing value of pandas;
    - quantities are Python integers, embedded as [Z];
    - Python's [None] is [None] of an [option];
    - a raised exception is the [Raise] outcome of a call; what the code
      mutates before it raises is kept;
    - the dictionary [Portfolio.stocks] is an association list in insertion
      order;
    - strings are ASCII strings. *)

From Stdlib Require Import List String Ascii ZArith Bool Arith Lia Permutation.
From Stdlib Require Import DecimalString DecimalZ.
From Stdlib Require Import Floats.
Import ListNotations.

Set Warnings "-inexact-float".
Local Open Scope list_scope.
Local Open Scope string_scope.

(* ===================================================================== *)
(** * Python values and builtins *)
(* ===================================================================== *)

(** The exception classes the program can meet. [ProviderError] stands for
    whatever [yfinance] raises from [Ticker.history]. *)
Inductive exn : Type :=
| TypeError
| ValueError
| KeyError
| IndexError
| AttributeError
| OverflowError
| ProviderError (msg : string).

(** Outcome of evaluating an expression or a call. *)
Inductive res (A : Type) : Type :=
| Ok (a : A)
| Raise (e : exn).
Arguments Ok {A} a.
Arguments Raise {A} e.

Definition is_ok {A} (r : res A) : bool :=
  match r with Ok _ => true | Raise _ => false end.

(** ** str *)

Definition str := string.

Definition chars (s : str) : list ascii := list_ascii_of_string s.
Definition of_chars (l : list ascii) : str := string_of_list_ascii l.

(** [str.upper()], on ASCII. *)
Definition upper_char (c : ascii) : ascii :=
  let n := nat_of_ascii c in
  if ((97 <=? n) && (n <=? 122))%nat then ascii_of_nat (n - 32) else c.

Fixpoint upper (s : str) : str :=
  match s with
  | EmptyString => EmptyString
  | String c r => String (upper_char c) (upper r)
  end.

(** [str.lower()], on ASCII. *)
Definition lower_char (c : ascii) : ascii :=
  let n := nat_of_ascii c in
  if ((65 <=? n) && (n <=? 90))%nat then ascii_of_nat (n + 32) else c.

Fixpoint lower (s : str) : str :=
  match s with
  | EmptyString => EmptyString
  | String c r => String (lower_char c) (lower r)
  end.

(** Padding of the format mini-language: [{s:<n}] and [{s:>n}]. *)
Fixpoint spaces (n : nat) : str :=
  match n with
  | O => ""
  | S k => String " " (spaces k)
  end.

Definition ljust (n : nat) (s : str) : str := s ++ spaces (n - String.length s).
Definition rjust (n : nat) (s : str) : str := spaces (n - String.length s) ++ s.

(** [s * n] for a one-character string, as in ["-" * 52]. *)
Fixpoint repeat_char (c : ascii) (n : nat) : str :=
  match n with
  | O => ""
  | S k => String c (repeat_char c k)
  end.

(** ** int *)

(** [str(n)] for an integer: an optional minus sign and the decimal digits
    (the interpreter's configurable cap on the number of digits is left
    out). *)
Definition str_int (n : Z) : str := NilZero.string_of_int (Z.to_int n).

Definition is_space (c : ascii) : bool :=
  let n := nat_of_ascii c in
  (((9 <=? n) && (n <=? 13)) || ((28 <=? n) && (n <=? 32)))%nat.

Definition is_digit (c : ascii) : bool :=
  let n := nat_of_ascii c in ((48 <=? n) && (n <=? 57))%nat.

Fixpoint lstrip (l : list ascii) : list ascii :=
  match l with
  | [] => []
  | c :: r => if is_space c then lstrip r else l
  end.

Definition strip (l : list ascii) : list ascii := rev (lstrip (rev (lstrip l))).

(** The digits of an integer literal: a digit first and last, single
    underscores allowed between digits. Returns the digits alone. *)
Fixpoint int_digits (after_digit : bool) (l : list ascii) : option (list ascii) :=
  match l with
  | [] => if after_digit then Some [] else None
  | c :: r =>
      if is_digit c then option_map (cons c) (int_digits true r)
      else if Ascii.eqb c "_" && after_digit then
        match r with
        | d :: _ => if is_digit d then int_digits false r else None
        | [] => None
        end
      else None
  end.

Definition int_unsigned (l : list ascii) : option Decimal.uint :=
  match int_digits false l with
  | Some ds => NilEmpty.uint_of_string (of_chars ds)
  | None => None
  end.

(** [int(s)] for a string, base 10: surrounding whitespace is dropped, one
    sign is allowed; anything else raises [ValueError]. *)
Definition int_of_str (s : str) : res Z :=
  let body :=
    match strip (chars s) with
    | "-"%char :: r => option_map Decimal.Neg (int_unsigned r)
    | "+"%char :: r => option_map Decimal.Pos (int_unsigned r)
    | l => option_map Decimal.Pos (int_unsigned l)
    end in
  match body with
  | Some d => Ok (Z.of_int d)
  | None => Raise ValueError
  end.

(** [int(x)] where [x] may be [None]. *)
Definition py_int (x : option str) : res Z :=
  match x with
  | None => Raise TypeError
  | Some s => int_of_str s
  end.

(** ** float *)

(** Conversion of a Python integer to binary64, as [float * int] does it:
    rounding to nearest even; an integer beyond the range of binary64
    raises [OverflowError] ("int too large to convert to float"). *)
Definition float_of_int (n : Z) : res float :=
  match SpecFloat.binary_normalize prec emax n 0 false with
  | SpecFloat.S754_infinity _ => Raise OverflowError
  | sf => Ok (SF2Prim sf)
  end.

(** [price * quantity] where either operand may be [None]: [None] has no
    multiplication, so the operator raises [TypeError]. *)
Definition py_mul (price : option float) (quantity : option Z) : res float :=
  match price, quantity with
  | Some p, Some q =>
      match float_of_int q with
      | Ok f => Ok (p * f)%float
      | Raise e => Raise e
      end
  | _, _ => Raise TypeError
  end.

(** ** dict, in insertion order *)

Definition dict (V : Type) : Type := list (str * V).

Definition keys {V} (d : dict V) : list str := map fst d.
Definition values {V} (d : dict V) : list V := map snd d.

Fixpoint dict_get {V} (k : str) (d : dict V) : option V :=
  match d with
  | [] => None
  | (k', v) :: r => if String.eqb k' k then Some v else dict_get k r
  end.

(** [k in d] *)
Definition dict_contains {V} (k : str) (d : dict V) : bool :=
  match dict_get k d with Some _ => true | None => false end.

(** [d[k] = v]: an existing key keeps its place, a new one goes last. *)
Fixpoint dict_set {V} (k : str) (v : V) (d : dict V) : dict V :=
  match d with
  | [] => [(k, v)]
  | (k', v') :: r =>
      if String.eqb k' k then (k', v) :: r else (k', v') :: dict_set k v r
  end.

(** [d.pop(k)], for a key that is present. *)
Fixpoint dict_pop {V} (k : str) (d : dict V) : dict V :=
  match d with
  | [] => []
  | (k', v) :: r => if String.eqb k' k then r else (k', v) :: dict_pop k r
  end.

(* ===================================================================== *)
(** * pandas: the bar table and its [Close] column *)
(* ===================================================================== *)

Record Bar : Type := mkBar {
  Open : float;
  High : float;
  Low : float;
  Close : float;
  Volume : float
}.

(** What [Ticker.history] returns: one row per trading day, oldest first. *)
Definition DataFrame : Type := list Bar.

(** [data['Close']] *)
Definition Close_column (data : DataFrame) : list float := map Close data.

(** [data.empty] *)
Definition empty (data : DataFrame) : bool :=
  match data with [] => true | _ => false end.

(** [series.iloc[-k]] for [k >= 1]. *)
Definition iloc_back (k : nat) (series : list float) : res float :=
  if ((1 <=? k) && (k <=? List.length series))%nat then
    match nth_error series (List.length series - k) with
    | Some x => Ok x
    | None => Raise IndexError
    end
  else Raise IndexError.

(** Sum of a window, accumulated from the left. *)
Definition window_sum (w : list float) : float :=
  fold_left PrimFloat.add w 0%float.

Definition float_of_nat (n : nat) : float :=
  PrimFloat.of_uint63 (Uint63.of_Z (Z.of_nat n)).

(** [mean()] of a full window. *)
Definition window_mean (w : list float) : float :=
  (window_sum w / float_of_nat (List.length w))%float.

(** Keeps the last [window] entries of the buffer. *)
Definition trim (window : nat) (buf : list float) : list float :=
  skipn (List.length buf - window) buf.

(** [series.rolling(window).mean()], by its documented meaning: one pass
    over the series with the trailing window as a buffer; the result is
    missing ([nan]) until the buffer holds [window] observations
    ([min_periods] defaults to the window), then it is the mean of the
    buffer. pandas keeps a compensated running sum instead of adding the
    window afresh, which can differ from this in the last bits. *)
Fixpoint rolling_mean_from (window : nat) (buf : list float) (series : list float)
  : list float :=
  match series with
  | [] => []
  | x :: rest =>
      let buf' := trim window (buf ++ [x])%list in
      (if (List.length buf' <? window)%nat then nan else window_mean buf')
        :: rolling_mean_from window buf' rest
  end.

Definition rolling_mean (window : nat) (series : list float) : list float :=
  rolling_mean_from window [] series.

(** [a > b], element by element. *)
Definition series_gt (a b : list float) : list bool :=
  map (fun p => (snd p <? fst p)%float) (combine a b).

(** [pd.isna] on one value. *)
Definition isna (x : float) : bool := PrimFloat.is_nan x.

(** The value the rolling mean gives to the last position of a prefix. *)
Definition rolling_cell (w : nat) (prefix : list float) : float :=
  if (List.length (trim w prefix) <? w)%nat then nan
  else window_mean (trim w prefix).

(** The two series [Stock.plot_history] derives from the bars before it
    draws them: [sma_5 = data['Close'].rolling(window=5).mean()] and
    [buy_signals = data['Close'] > sma_5]. *)
Definition sma_5 (data : DataFrame) : list float :=
  rolling_mean 5 (Close_column data).

Definition buy_signals (data : DataFrame) : list bool :=
  series_gt (Close_column data) (sma_5 data).

(** The two figures the ledger shows per holding, as functions of the
    table. *)

(** The close of the last bar, if there is one. *)
Definition latest_price (table : DataFrame) : option float :=
  nth_error (Close_column table) (List.length table - 1).

(** The change of the last close against the one before, in percent, when
    the table has two bars. *)
Definition daily_change (table : DataFrame) : option float :=
  if (List.length table <? 2)%nat then None
  else
    let today_close := nth (List.length table - 1) (Close_column table) nan in
    let yesterday_close := nth (List.length table - 2) (Close_column table) nan in
    Some (((today_close - yesterday_close) / yesterday_close) * 100)%float.

(* ===================================================================== *)
(** * The program *)
(* ===================================================================== *)

Section Program.

(** The quote provider behind [yf.Ticker(symbol).history(period, interval)]:
    given its current state it answers with a table or raises, and moves to
    a next state (two calls need not agree). *)
Variable Provider : Type.
Variable history : str -> str -> str -> Provider -> res DataFrame * Provider.

(** Builtin renderings that the model does not spell out: [format(x, '.2f')],
    [format(x, '+.2f')] and [str(x)] of a float, [str(e)] of an exception. *)
Variable format_2f : float -> str.
Variable format_plus_2f : float -> str.
Variable str_float : float -> str.
Variable str_exn : exn -> str.

(** What the process can see and change besides its objects: the provider,
    the lines printed so far and the records of [output/portfolio.csv]
    ([None] when the file does not exist), header row first. The file is
    kept as the records [csv.DictWriter] is given and [csv.DictReader]
    yields; how the csv module quotes and ends its lines is not modelled. *)
Record Runtime : Type := mkRuntime {
  provider : Provider;
  stdout : list str;
  portfolio_csv : option (list (list str))
}.

Definition print (line : str) (rt : Runtime) : Runtime :=
  mkRuntime (provider rt) (stdout rt ++ [line])%list (portfolio_csv rt).

Definition set_provider (pv : Provider) (rt : Runtime) : Runtime :=
  mkRuntime pv (stdout rt) (portfolio_csv rt).

Definition set_portfolio_csv (f : option (list (list str))) (rt : Runtime) : Runtime :=
  mkRuntime (provider rt) (stdout rt) f.

(** A method of an object of class [Self]: it may change the object and the
    runtime, and returns or raises. *)
Definition method (Self A : Type) : Type :=
  Self -> Runtime -> res A * Self * Runtime.

Definition ret {Self A} (a : A) : method Self A :=
  fun self rt => (Ok a, self, rt).

Definition bind {Self A B} (m : method Self A) (k : A -> method Self B)
  : method Self B :=
  fun self rt =>
    match m self rt with
    | (Ok a, self', rt') => k a self' rt'
    | (Raise e, self', rt') => (Raise e, self', rt')
    end.

Definition get_self {Self} : method Self Self :=
  fun self rt => (Ok self, self, rt).

Definition say {Self} (line : str) : method Self unit :=
  fun self rt => (Ok tt, self, print line rt).

Definition eval {Self A} (r : res A) : method Self A :=
  fun self rt => (r, self, rt).

Notation "x <- m ;; k" := (bind m (fun x => k))
  (at level 61, m at next level, right associativity).
Notation "m ;;; k" := (bind m (fun _ => k))
  (at level 61, right associativity).

(** ** class Stock *)

Record Stock : Type := mkStock {
  quantity : option Z;
  symbol : str;
  data : option DataFrame
}.

Definition set_quantity (q : option Z) (s : Stock) : Stock :=
  mkStock q (symbol s) (data s).

Definition set_data (d : option DataFrame) (s : Stock) : Stock :=
  mkStock (quantity s) (symbol s) d.

(** [Stock(ticker)] *)
Definition Stock_init (ticker : str) : Stock :=
  mkStock None (upper ticker) None.

Definition get_data (period interval : str) (refresh : bool)
  : method Stock (option DataFrame) :=
  fun self rt =>
    if (match data self with None => true | Some _ => false end) || refresh then
      match history (symbol self) period interval (provider rt) with
      | (Ok table, pv) =>
          (Ok (Some table), set_data (Some table) self, set_provider pv rt)
      | (Raise e, pv) =>
          (Ok None, self,
           print ("Error fetching data for " ++ symbol self ++ ": " ++ str_exn e)
                 (set_provider pv rt))
      end
    else (Ok (data self), self, rt).

Definition get_price : method Stock (option float) :=
  d <- get_data "1mo" "1d" false ;;
  match d with
  | None => ret None
  | Some table =>
      if empty table then ret None
      else
        match iloc_back 1 (Close_column table) with
        | Ok price => ret (Some price)
        | Raise e =>
            self <- get_self ;;
            say ("Error fetching price for " ++ symbol self ++ ": " ++ str_exn e) ;;;
            ret None
        end
  end.

Definition get_value : method Stock float :=
  price <- get_price ;;
  self <- get_self ;;
  eval (py_mul price (quantity self)).

(** The arithmetic of the [try] block of [get_daily_change_percent]. The
    closes are numpy.float64: subtraction, division and multiplication
    raise nothing, a zero divisor gives an infinity or [nan]. Only the two
    [iloc] lookups can raise. *)
Definition change_percent (closes : list float) : res float :=
  match iloc_back 2 closes with
  | Raise e => Raise e
  | Ok yesterday_close =>
      match iloc_back 1 closes with
      | Raise e => Raise e
      | Ok today_close =>
          Ok (((today_close - yesterday_close) / yesterday_close) * 100)%float
      end
  end.

Definition get_daily_change_percent : method Stock (option float) :=
  d <- get_data "1mo" "1d" false ;;
  match d with
  | None => ret None
  | Some table =>
      if (List.length table <? 2)%nat then ret None
      else
        match change_percent (Close_column table) with
        | Ok change => ret (Some change)
        | Raise e =>
            self <- get_self ;;
            say ("Error calculating daily change for " ++ symbol self ++ ": "
                 ++ str_exn e) ;;;
            ret None
        end
  end.

(** ** class Portfolio *)

(** [self.stocks] *)
Definition Portfolio : Type := dict Stock.

(** [for key, stock in self.stocks.items(): body]: the body runs on each
    stock in insertion order and may change it; the loop stops at the first
    exception. *)
Fixpoint for_items {A} (body : str -> method Stock A) (items : dict Stock)
  (rt : Runtime) : res (list A) * dict Stock * Runtime :=
  match items with
  | [] => (Ok [], [], rt)
  | (key, stock) :: rest =>
      match body key stock rt with
      | (Ok a, stock', rt') =>
          match for_items body rest rt' with
          | (Ok l, rest', rt'') => (Ok (a :: l), (key, stock') :: rest', rt'')
          | (Raise e, rest', rt'') => (Raise e, (key, stock') :: rest', rt'')
          end
      | (Raise e, stock', rt') => (Raise e, (key, stock') :: rest, rt')
      end
  end.

(** [row[name]] of the dictionary [csv.DictReader] builds from the header
    and one record: a field the record is too short for is [None], a name
    that is not in the header raises [KeyError]. *)
Fixpoint row_lookup (name : str) (fieldnames row : list str)
  (found : option (option str)) : option (option str) :=
  match fieldnames with
  | [] => found
  | f :: fs =>
      match row with
      | [] => row_lookup name fs [] (if String.eqb f name then Some None else found)
      | v :: vs =>
          row_lookup name fs vs (if String.eqb f name then Some (Some v) else found)
      end
  end.

Definition row_get (name : str) (fieldnames row : list str) : res (option str) :=
  match row_lookup name fieldnames row None with
  | Some v => Ok v
  | None => Raise KeyError
  end.

(** The body of the loading loop for one record. [Stock(ticker)] calls
    [ticker.upper()], which [None] does not have. *)
Definition load_row (fieldnames row : list str) (stocks : Portfolio) : res Portfolio :=
  match row_get "Ticker" fieldnames row with
  | Raise e => Raise e
  | Ok ticker =>
      match row_get "Quantity" fieldnames row with
      | Raise e => Raise e
      | Ok field =>
          match py_int field with
          | Raise e => Raise e
          | Ok qty =>
              match ticker with
              | None => Raise AttributeError
              | Some t => Ok (dict_set t (set_quantity (Some qty) (Stock_init t)) stocks)
              end
          end
      end
  end.

(** The loading loop; [csv.DictReader] skips empty records. Returns the
    stocks loaded so far and the exception that stopped the loop, if any. *)
Fixpoint load_rows (fieldnames : list str) (rows : list (list str))
  (stocks : Portfolio) : Portfolio * option exn :=
  match rows with
  | [] => (stocks, None)
  | [] :: rest => load_rows fieldnames rest stocks
  | row :: rest =>
      match load_row fieldnames row stocks with
      | Ok stocks' => load_rows fieldnames rest stocks'
      | Raise e => (stocks, Some e)
      end
  end.

Definition str_nat (n : nat) : str := str_int (Z.of_nat n).

(** [Portfolio()] *)
Definition Portfolio_init (rt : Runtime) : Portfolio * Runtime :=
  match portfolio_csv rt with
  | None => ([], rt)
  | Some records =>
      let '(stocks, stopped) :=
        match records with
        | [] => ([], None)
        | fieldnames :: rows => load_rows fieldnames rows []
        end in
      match stopped with
      | None =>
          (stocks,
           print ("Loaded " ++ str_nat (List.length stocks)
                  ++ " stocks from portfolio.csv") rt)
      | Some e => (stocks, print ("Error loading portfolio: " ++ str_exn e) rt)
      end
  end.

Definition nl : str := String "010"%char "".

Definition str_option_float (x : option float) : str :=
  match x with Some f => str_float f | None => "None" end.

Definition str_option_int (x : option Z) : str :=
  match x with Some n => str_int n | None => "None" end.

Definition table_header : str :=
  "Portfolio Holdings:" ++ nl
  ++ ljust 10 "Ticker" ++ " " ++ ljust 10 "Price" ++ " " ++ ljust 10 "Change %"
  ++ " " ++ ljust 10 "Qty" ++ " " ++ ljust 10 "Value" ++ nl
  ++ repeat_char "-" 52 ++ nl.

(** The line of a holding whose price and quantity are both set. *)
Definition holding_line (ticker : str) (price : float) (change : option float)
  (qty : Z) (value : float) : str :=
  let change_str :=
    match change with
    | Some c => rjust 7 (format_plus_2f c) ++ "%"
    | None => "N/A"
    end in
  ljust 10 ticker ++ " $" ++ ljust 9 (format_2f price) ++ " "
  ++ ljust 10 change_str ++ " " ++ ljust 10 (str_int qty) ++ " $"
  ++ format_2f value ++ nl.

Definition error_line (ticker : str) (price : option float) (qty : option Z) : str :=
  ticker ++ ": Error (Price: " ++ str_option_float price ++ ", Qty: "
  ++ str_option_int qty ++ ")" ++ nl.

(** The body of the loop of [Portfolio.__str__]: the text it appends. *)
Definition table_row (ticker : str) : method Stock str :=
  price <- get_price ;;
  self <- get_self ;;
  let qty := quantity self in
  change <- get_daily_change_percent ;;
  match price, qty with
  | Some p, Some q =>
      value <- eval (py_mul (Some p) (Some q)) ;;
      ret (holding_line ticker p change q value)
  | _, _ => ret (error_line ticker price qty)
  end.

(** [Portfolio.__str__] *)
Definition Portfolio_str : method Portfolio str :=
  fun stocks rt =>
    match for_items table_row stocks rt with
    | (Ok rows, stocks', rt') => (Ok (table_header ++ String.concat "" rows), stocks', rt')
    | (Raise e, stocks', rt') => (Raise e, stocks', rt')
    end.

Definition add_stock (ticker : str) (qty : Z) : method Portfolio unit :=
  fun stocks rt =>
    if dict_contains ticker stocks then
      (Ok tt, stocks, print ("Stock " ++ ticker ++ " is already in portfolio.") rt)
    else
      let rt1 := print ("Validating " ++ ticker ++ "...") rt in
      let new_stock := Stock_init ticker in
      match get_price new_stock rt1 with
      | (Ok None, _, rt2) =>
          (Ok tt, stocks,
           print ("Error: '" ++ ticker ++ "' appears to be an invalid ticker symbol.") rt2)
      | (Ok (Some _), new_stock', rt2) =>
          (Ok tt, dict_set ticker (set_quantity (Some qty) new_stock') stocks,
           print ("Added " ++ ticker ++ " to portfolio.") rt2)
      | (Raise e, _, rt2) => (Raise e, stocks, rt2)
      end.

Definition remove_stock (ticker : str) : method Portfolio unit :=
  fun stocks rt =>
    if dict_contains ticker stocks then
      (Ok tt, dict_pop ticker stocks,
       print ("Removed stock " ++ ticker ++ " from portfolio") rt)
    else
      (Ok tt, stocks, print ("Stock " ++ ticker ++ " is not in portfolio") rt).

(** The record [csv.DictWriter.writerow] writes for one holding: [None] is
    written as the empty field, an integer as its [str]. *)
Definition csv_record (ticker : str) (stock : Stock) : list str :=
  [ticker; match quantity stock with Some n => str_int n | None => "" end].

(** [save_to_csv]: [ensure_output_dir] only makes the directory, whose
    existence the model does not track. *)
Definition save_to_csv : method Portfolio unit :=
  fun stocks rt =>
    let records :=
      ["Ticker"; "Quantity"] :: map (fun kv => csv_record (fst kv) (snd kv)) stocks in
    (Ok tt, stocks,
     print "Saved portfolio to 'output/portfolio.csv'"
           (set_portfolio_csv (Some records) rt)).

(** [sum(values)]: starts from 0 and adds from the left (the integer 0
    that [sum] returns for no value at all is the float 0 here). *)
Definition py_sum (l : list float) : float := fold_left PrimFloat.add l 0%float.

Definition get_total_value : method Portfolio float :=
  fun stocks rt =>
    match for_items (fun _ => get_value) stocks rt with
    | (Ok vals, stocks', rt') => (Ok (py_sum vals), stocks', rt')
    | (Raise e, stocks', rt') => (Raise e, stocks', rt')
    end.

(** ** main *)

(** The command loop reads every ticker, for add, remove and history, as
    [input(...).upper().strip()] before it calls the portfolio. *)
Definition read_ticker (typed : str) : str :=
  of_chars (strip (chars (upper typed))).

(** ** What the operations are judged by *)

(** A method call that left the holding itself alone: same symbol, same
    quantity, and the saved file untouched. *)
Definition same_holding (self : Stock) (rt : Runtime) (self' : Stock) (rt' : Runtime)
  : Prop :=
  symbol self' = symbol self
  /\ quantity self' = quantity self
  /\ portfolio_csv rt' = portfolio_csv rt.

(** The lines by which the program reports the failures of the ledger. *)
Definition DuplicateSymbol (ticker : str) : str :=
  "Stock " ++ ticker ++ " is already in portfolio.".

Definition InvalidSymbol (ticker : str) : str :=
  "Error: '" ++ ticker ++ "' appears to be an invalid ticker symbol.".

Definition UnknownSymbol (ticker : str) : str :=
  "Stock " ++ ticker ++ " is not in portfolio".

(** What [add_stock] asks the provider: a month of daily bars for the
    upper-cased ticker, after announcing the validation. *)
Definition validation_request (ticker : str) (rt : Runtime)
  : res DataFrame * Provider :=
  history (upper ticker) "1mo" "1d" (provider rt).

Definition validating (ticker : str) (rt : Runtime) : Runtime :=
  print ("Validating " ++ ticker ++ "...") rt.

(** A holding whose table is cached and has a last close, with a quantity
    that binary64 can hold; and one whose cached table has no last close. *)
Definition valued (stock : Stock) : Prop :=
  exists table p q f,
    data stock = Some table /\ latest_price table = Some p
    /\ quantity stock = Some q /\ float_of_int q = Ok f.

Definition unpriced (stock : Stock) : Prop :=
  exists table, data stock = Some table /\ latest_price table = None.

(** A quantity that converts to binary64. *)
Definition in_float_range (q : Z) : Prop := is_ok (float_of_int q) = true.

Definition quantities_in_float_range (stocks : Portfolio) : Prop :=
  Forall (fun kv => forall q, quantity (snd kv) = Some q -> in_float_range q) stocks.

(** The line of the table for a holding, given what its two queries
    returned: a holding line when price and quantity are both set, the
    error line otherwise. *)
Definition row_text (ticker : str) (price change : option float) (qty : option Z)
  : res str :=
  match price, qty with
  | Some p, Some q =>
      match float_of_int q with
      | Ok f => Ok (holding_line ticker p change q (p * f)%float)
      | Raise e => Raise e
      end
  | _, _ => Ok (error_line ticker price qty)
  end.

(** What a line of the table says about a holding. *)
Definition shows (kv : str * Stock) (line : str) : Prop :=
  exists price change,
    row_text (fst kv) price change (quantity (snd kv)) = Ok line
    /\ (forall table, data (snd kv) = Some table ->
        price = latest_price table /\ change = daily_change table).

(** What the loop may change in an entry: the cached table only. *)
Definition same_entry (kv kv' : str * Stock) : Prop :=
  fst kv' = fst kv
  /\ symbol (snd kv') = symbol (snd kv)
  /\ quantity (snd kv') = quantity (snd kv).

(** The pairs a portfolio stands for: per key, and per symbol field. *)
Definition holdings (stocks : Portfolio) : list (str * option Z) :=
  map (fun kv => (fst kv, quantity (snd kv))) stocks.

Definition positions (stocks : Portfolio) : list (str * option Z) :=
  map (fun kv => (symbol (snd kv), quantity (snd kv))) stocks.

(** The entry that loading rebuilds from the record of an entry. *)
Definition reloaded (kv : str * Stock) : str * Stock :=
  (fst kv, mkStock (quantity (snd kv)) (upper (fst kv)) None).

Definition saved_records (stocks : Portfolio) : list (list str) :=
  map (fun kv => csv_record (fst kv) (snd kv)) stocks.

(** Every key is the symbol of its holding, and that symbol is upper
    case. *)
Definition key_is_symbol (stocks : Portfolio) : Prop :=
  Forall (fun kv => fst kv = symbol (snd kv)
                    /\ upper (symbol (snd kv)) = symbol (snd kv)) stocks.

(** The operations on the ledger. *)
Inductive command : Type :=
| Load
| Add (ticker : str) (qty : Z)
| Remove (ticker : str)
| Save.

(** The ticker the command hands to the ledger is already upper case. *)
Definition upper_case_command (c : command) : Prop :=
  match c with
  | Add ticker _ => upper ticker = ticker
  | _ => True
  end.

(** Every [Ticker] field of the saved file, if there is one, is upper
    case. *)
Definition upper_case_file (file : option (list (list str))) : Prop :=
  match file with
  | Some (fieldnames :: rows) =>
      Forall (fun row => forall t,
                  row_get "Ticker" fieldnames row = Ok (Some t) -> upper t = t) rows
  | _ => True
  end.

(** What the theorems about saving and removing ask of a ledger holds in
    every state the program reaches: no key twice, every quantity set. *)
Definition ledger_ok (stocks : Portfolio) : Prop :=
  NoDup (keys stocks) /\ Forall (fun kv => quantity (snd kv) <> None) stocks.

(** One command, on the ledger and the runtime; what a call returns is
    dropped. *)
Definition step (c : command) (state : Portfolio * Runtime)
  : Portfolio * Runtime :=
  match c with
  | Load => Portfolio_init (snd state)
  | Add ticker qty =>
      let '(_, stocks, rt) := add_stock ticker qty (fst state) (snd state) in
      (stocks, rt)
  | Remove ticker =>
      let '(_, stocks, rt) := remove_stock ticker (fst state) (snd state) in
      (stocks, rt)
  | Save =>
      let '(_, stocks, rt) := save_to_csv (fst state) (snd state) in
      (stocks, rt)
  end.

Definition run (cs : list command) (state : Portfolio * Runtime)
  : Portfolio * Runtime :=
  fold_left (fun st c => step c st) cs state.

(** The state kept along a run: the ledger and the file agree with the
    upper-case convention. *)
Definition well_keyed (state : Portfolio * Runtime) : Prop :=
  key_is_symbol (fst state) /\ upper_case_file (portfolio_csv (snd state)).

End Program.

Arguments mkRuntime {Provider} _ _ _.
Arguments provider {Provider} _.
Arguments stdout {Provider} _.
Arguments portfolio_csv {Provider} _.
Arguments print {Provider} _ _.
Arguments get_data {Provider} _ _ _ _ _ _ _.
Arguments get_price {Provider} _ _ _ _.
Arguments get_value {Provider} _ _ _ _.
Arguments get_daily_change_percent {Provider} _ _ _ _.
Arguments table_row {Provider} _ _ _ _ _ _ _ _.
Arguments Portfolio_str {Provider} _ _ _ _ _ _ _.
Arguments add_stock {Provider} _ _ _ _ _ _.
Arguments remove_stock {Provider} _ _ _.
Arguments save_to_csv {Provider} _ _.
Arguments Portfolio_init {Provider} _ _.
Arguments get_total_value {Provider} _ _ _ _.
Arguments for_items {Provider A} _ _ _.
Arguments ret {Provider Self A} _ _ _.
Arguments bind {Provider Self A B} _ _ _ _.
Arguments get_self {Provider Self} _ _.
Arguments say {Provider Self} _ _ _.
Arguments eval {Provider Self A} _ _ _.
Arguments set_provider {Provider} _ _.
Arguments set_portfolio_csv {Provider} _ _.
Arguments same_holding {Provider} _ _ _ _.
Arguments validation_request {Provider} _ _ _.
Arguments validating {Provider} _ _.
Arguments step {Provider} _ _ _ _.
Arguments run {Provider} _ _ _ _.
Arguments well_keyed {Provider} _.

(* ===================================================================== *)
(** * Charts and the command loop *)
(* ===================================================================== *)

(** What matplotlib is asked to draw before [savefig]: the history chart of
    one symbol (title, the closes, the moving average, the rows marked as
    buy signals) or the watchlist bars (tickers and heights). How the
    picture is rendered is matplotlib's. *)
Inductive Chart : Type :=
| HistoryChart (title : str) (price sma : list float) (signals : list Bar)
| WatchlistChart (tickers : list str) (prices : list float).

(** [data[mask]]: the rows whose flag is set. *)
Definition select_rows (data : DataFrame) (mask : list bool) : DataFrame :=
  map fst (filter snd (combine data mask)).

(** The pairs [generate_chart] collects: the holdings that have a price. *)
Fixpoint valid_quotes (quotes : list (str * option float)) : list (str * float) :=
  match quotes with
  | [] => []
  | (ticker, Some price) :: rest => (ticker, price) :: valid_quotes rest
  | (_, None) :: rest => valid_quotes rest
  end.

(** How a run of [main] ends: the exit command, an exception nobody
    catches, or [input] meeting the end of the input ([EOFError]). *)
Inductive ending : Type :=
| Exited
| Crashed (e : exn)
| EndOfInput.

(** The words of the command prompt. *)
Definition choices : list str :=
  ["add"; "remove"; "view"; "history"; "chart"; "exit"; "e"; "q"].

Section Session.

Variable Provider : Type.
Variable history : str -> str -> str -> Provider -> res DataFrame * Provider.
Variable format_2f : float -> str.
Variable format_plus_2f : float -> str.
Variable str_float : float -> str.
Variable str_exn : exn -> str.

(** [str(frame)] of a bar table, as [print] shows it. *)
Variable str_frame : DataFrame -> str.

(** [sorted(pairs, key=lambda x: x[1], reverse=True)]: the builtin sort,
    taken as it is. What the theorems need of it is asked where they need
    it. *)
Variable sorted_by_price : list (str * float) -> list (str * float).

(** The runtime together with the pictures saved under [output/], by
    path. *)
Record Machine : Type := mkMachine {
  runtime : Runtime Provider;
  charts : dict Chart
}.

Definition with_runtime (rt : Runtime Provider) (m : Machine) : Machine :=
  mkMachine rt (charts m).

Definition savefig (path : str) (chart : Chart) (m : Machine) : Machine :=
  mkMachine (runtime m) (dict_set path chart (charts m)).

(** [Stock.plot_history] *)
Definition plot_history (self : Stock) (m : Machine) : res unit * Stock * Machine :=
  match get_data history str_exn "1mo" "1d" false self (runtime m) with
  | (Raise e, self', rt) => (Raise e, self', with_runtime rt m)
  | (Ok None, self', rt) => (Ok tt, self', with_runtime rt m)
  | (Ok (Some data), self', rt) =>
      let rt := print (str_frame (firstn 5 data)) rt in
      let sma := sma_5 data in
      let signals := buy_signals data in
      let plot_signals := select_rows data signals in
      let rt := print "Buy signals:" rt in
      let rt := print (str_frame (select_rows data signals)) rt in
      let chart :=
        HistoryChart (symbol self' ++ " Price History") (Close_column data) sma
          plot_signals in
      let out_path := "output/" ++ symbol self' ++ "_history.png" in
      let m := savefig out_path chart (with_runtime rt m) in
      (Ok tt, self',
       with_runtime (print ("Saved history chart to '" ++ out_path ++ "'.") (runtime m)) m)
  end.

(** The body of the loop of [generate_chart]: the ticker with its price. *)
Definition quote (ticker : str) : method Provider Stock (str * option float) :=
  fun self rt =>
    match get_price history str_exn self rt with
    | (Ok price, self', rt') => (Ok (ticker, price), self', rt')
    | (Raise e, self', rt') => (Raise e, self', rt')
    end.

(** [Portfolio.generate_chart] *)
Definition generate_chart (stocks : Portfolio) (m : Machine)
  : res unit * Portfolio * Machine :=
  match stocks with
  | [] =>
      (Ok tt, stocks,
       with_runtime (print "No stocks in portfolio to generate chart for." (runtime m)) m)
  | _ =>
      match for_items quote stocks (runtime m) with
      | (Ok quotes, stocks', rt) =>
          let valid_stocks := valid_quotes quotes in
          let sorted_stocks := sorted_by_price valid_stocks in
          let top5 := firstn 5 sorted_stocks in
          let chart := WatchlistChart (map fst top5) (map snd top5) in
          let m := savefig "output/chart.png" chart (with_runtime rt m) in
          (Ok tt, stocks',
           with_runtime (print "Saved bar chart to 'output/chart.png'." (runtime m)) m)
      | (Raise e, stocks', rt) =>
          (Ok tt, stocks',
           with_runtime (print ("Error generating chart: " ++ str_exn e) rt) m)
      end
  end.

(** [input(prompt)]: the prompt is written out (as an entry of [stdout],
    its missing line end is not told apart), one line of the input is
    taken; [None] stands for [EOFError]. *)
Definition input (prompt : str) (stdin : list str) (m : Machine)
  : option str * list str * Machine :=
  let m' := with_runtime (print prompt (runtime m)) m in
  match stdin with
  | [] => (None, [], m')
  | line :: rest => (Some line, rest, m')
  end.

(** Where a run stands: what is left of the input, the ledger, the
    machine. *)
Definition session : Type := (list str * Portfolio * Machine)%type.

(** The command [add]. [None]: go on with the loop. *)
Definition do_add (stdin : list str) (stocks : Portfolio) (m : Machine)
  : option ending * session :=
  match input "Enter ticker: " stdin m with
  | (None, stdin, m) => (Some EndOfInput, (stdin, stocks, m))
  | (Some typed, stdin, m) =>
      let user_input := read_ticker typed in
      match input "Enter quantity: " stdin m with
      | (None, stdin, m) => (Some EndOfInput, (stdin, stocks, m))
      | (Some number, stdin, m) =>
          match int_of_str number with
          | Raise e => (Some (Crashed e), (stdin, stocks, m))
          | Ok quantity =>
              match add_stock history str_exn user_input quantity stocks (runtime m) with
              | (Ok _, stocks, rt) => (None, (stdin, stocks, with_runtime rt m))
              | (Raise e, stocks, rt) =>
                  (Some (Crashed e), (stdin, stocks, with_runtime rt m))
              end
          end
      end
  end.

(** The command [remove]. *)
Definition do_remove (stdin : list str) (stocks : Portfolio) (m : Machine)
  : option ending * session :=
  match input "Enter ticker to remove: " stdin m with
  | (None, stdin, m) => (Some EndOfInput, (stdin, stocks, m))
  | (Some typed, stdin, m) =>
      match remove_stock (read_ticker typed) stocks (runtime m) with
      | (Ok _, stocks, rt) => (None, (stdin, stocks, with_runtime rt m))
      | (Raise e, stocks, rt) => (Some (Crashed e), (stdin, stocks, with_runtime rt m))
      end
  end.

(** The command [view]: [print(portfolio)]. *)
Definition do_view (stdin : list str) (stocks : Portfolio) (m : Machine)
  : option ending * session :=
  match Portfolio_str history format_2f format_plus_2f str_float str_exn
          stocks (runtime m) with
  | (Ok text, stocks, rt) => (None, (stdin, stocks, with_runtime (print text rt) m))
  | (Raise e, stocks, rt) => (Some (Crashed e), (stdin, stocks, with_runtime rt m))
  end.

(** The command [history]: the stock of the ledger if the ticker is held,
    a new one otherwise. *)
Definition do_history (stdin : list str) (stocks : Portfolio) (m : Machine)
  : option ending * session :=
  match input "Enter ticker: " stdin m with
  | (None, stdin, m) => (Some EndOfInput, (stdin, stocks, m))
  | (Some typed, stdin, m) =>
      let user_input := read_ticker typed in
      match dict_get user_input stocks with
      | Some stock =>
          match plot_history stock m with
          | (Ok _, stock, m) => (None, (stdin, dict_set user_input stock stocks, m))
          | (Raise e, stock, m) =>
              (Some (Crashed e), (stdin, dict_set user_input stock stocks, m))
          end
      | None =>
          match plot_history (Stock_init user_input) m with
          | (Ok _, _, m) => (None, (stdin, stocks, m))
          | (Raise e, _, m) => (Some (Crashed e), (stdin, stocks, m))
          end
      end
  end.

(** The command [chart]. *)
Definition do_chart (stdin : list str) (stocks : Portfolio) (m : Machine)
  : option ending * session :=
  match generate_chart stocks m with
  | (Ok _, stocks, m) => (None, (stdin, stocks, m))
  | (Raise e, stocks, m) => (Some (Crashed e), (stdin, stocks, m))
  end.

(** The commands [exit], [e] and [q]: thanks, save, chart, leave. *)
Definition do_exit (stdin : list str) (stocks : Portfolio) (m : Machine)
  : option ending * session :=
  let rt := print "Thank you for using this stock checker." (runtime m) in
  match save_to_csv stocks rt with
  | (Raise e, stocks, rt) => (Some (Crashed e), (stdin, stocks, with_runtime rt m))
  | (Ok _, stocks, rt) =>
      match generate_chart stocks (with_runtime rt m) with
      | (Ok _, stocks, m) => (Some Exited, (stdin, stocks, m))
      | (Raise e, stocks, m) => (Some (Crashed e), (stdin, stocks, m))
      end
  end.

(** One turn of [while True]: the prompt, the check of the choice, the
    branch of [match]. *)
Definition turn (stdin : list str) (stocks : Portfolio) (m : Machine)
  : option ending * session :=
  match input "What would you like to do? (add, remove, view, history, chart, exit): "
          stdin m with
  | (None, stdin, m) => (Some EndOfInput, (stdin, stocks, m))
  | (Some user_choice, stdin, m) =>
      let choice := lower user_choice in
      if negb (existsb (String.eqb choice) choices) then
        (None,
         (stdin, stocks,
          with_runtime
            (print "Invalid choice. Please select from the available options."
               (runtime m)) m))
      else if String.eqb choice "add" then do_add stdin stocks m
      else if String.eqb choice "remove" then do_remove stdin stocks m
      else if String.eqb choice "view" then do_view stdin stocks m
      else if String.eqb choice "history" then do_history stdin stocks m
      else if String.eqb choice "chart" then do_chart stdin stocks m
      else do_exit stdin stocks m
  end.

(** [while True], by the number of turns it may still take; [None] when
    they run out. *)
Fixpoint main_loop (turns : nat) (stdin : list str) (stocks : Portfolio) (m : Machine)
  : option (ending * session) :=
  match turns with
  | O => None
  | S turns' =>
      match turn stdin stocks m with
      | (Some e, state) => Some (e, state)
      | (None, (stdin', stocks', m')) => main_loop turns' stdin' stocks' m'
      end
  end.

(** [main()], on the lines of its input: every turn takes a line or ends
    the run, so one turn more than there are lines is enough. *)
Definition main (stdin : list str) (m : Machine) : option (ending * session) :=
  let '(stocks, rt) := Portfolio_init str_exn (runtime m) in
  let rt := print "Welcome to the Alpha Dashboard!" rt in
  let rt := print "===============================" rt in
  main_loop (S (List.length stdin)) stdin stocks (with_runtime rt m).

End Session.

Arguments mkMachine {Provider} _ _.
Arguments runtime {Provider} _.
Arguments charts {Provider} _.
Arguments with_runtime {Provider} _ _.
Arguments savefig {Provider} _ _ _.
Arguments plot_history {Provider} _ _ _ _ _.
Arguments quote {Provider} _ _ _ _ _.
Arguments generate_chart {Provider} _ _ _ _ _.
Arguments input {Provider} _ _ _.
Arguments session : clear implicits.
Arguments do_add {Provider} _ _ _ _ _.
Arguments do_remove {Provider} _ _ _.
Arguments do_view {Provider} _ _ _ _ _ _ _ _.
Arguments do_history {Provider} _ _ _ _ _ _.
Arguments do_chart {Provider} _ _ _ _ _ _.
Arguments do_exit {Provider} _ _ _ _ _ _.
Arguments turn {Provider} _ _ _ _ _ _ _ _ _ _.
Arguments main_loop {Provider} _ _ _ _ _ _ _ _ _ _ _.
Arguments main {Provider} _ _ _ _ _ _ _ _ _.

(* ===================================================================== *)
(** * What the rest of the code is judged by *)
(* ===================================================================== *)

(** The last close of the table a stock holds, if it holds one. *)
Definition held_price (self : Stock) : option float :=
  match data self with
  | Some table => latest_price table
  | None => None
  end.

(** The parts of what a call gives back: how it ended, the object it was
    called on, and the runtime (or machine) it left. *)
Definition outcome {A Self R : Type} (result : res A * Self * R) : res A :=
  fst (fst result).

Definition self_after {A Self R : Type} (result : res A * Self * R) : Self :=
  snd (fst result).

Definition rest_after {A Self R : Type} (result : res A * Self * R) : R :=
  snd result.

(** The value of a holding by the table it holds: last close times
    quantity, when both are there and the quantity fits binary64. *)
Definition holding_value (stock : Stock) : option float :=
  match held_price stock, quantity stock with
  | Some p, Some q =>
      match float_of_int q with
      | Ok f => Some (p * f)%float
      | Raise _ => None
      end
  | _, _ => None
  end.

(** The holdings that have a price by the table they hold, with it, in
    the order of the ledger. *)
Definition priced_holdings (stocks : Portfolio) : list (str * float) :=
  valid_quotes (map (fun kv => (fst kv, held_price (snd kv))) stocks).

(** The parts of what a run of [main] gives back. *)
Definition ended {Provider : Type} (result : option (ending * session Provider))
  : option ending :=
  option_map fst result.

Definition final_ledger {Provider : Type} (result : option (ending * session Provider))
  : Portfolio :=
  match result with
  | Some (_, (_, stocks, _)) => stocks
  | None => []
  end.

Definition final_runtime {Provider : Type} (start : Machine Provider)
  (result : option (ending * session Provider)) : Runtime Provider :=
  match result with
  | Some (_, (_, _, m)) => runtime m
  | None => runtime start
  end.

(** What a turn of the command loop keeps: it gives back no more input
    than [bound] lines, a ledger that is still a dictionary with its
    quantities set and still keyed by its upper-case symbols, and the saved
    file as it was, unless it is the exit, which leaves the records of the
    ledger in the file. *)
Definition carries_on {Provider : Type} (bound : nat) (stocks : Portfolio)
  (m : Machine Provider) (result : option ending * session Provider) : Prop :=
  let '(e, (stdin', stocks', m')) := result in
  (List.length stdin' <= bound)%nat
  /\ (ledger_ok stocks -> ledger_ok stocks')
  /\ (key_is_symbol stocks -> key_is_symbol stocks')
  /\ portfolio_csv (runtime m') =
     match e with
     | Some Exited => Some (["Ticker"; "Quantity"] :: saved_records stocks')
     | _ => portfolio_csv (runtime m)
     end.

(** An entry as loading makes it: the symbol is the upper-cased key, no
    table yet, the quantity set. *)
Definition fresh_entry (kv : str * Stock) : Prop :=
  symbol (snd kv) = upper (fst kv)
  /\ data (snd kv) = None
  /\ quantity (snd kv) <> None.

(* ===================================================================== *)
(** * A small provider to run the program on *)
(* ===================================================================== *)

(** A bar that opened, peaked, bottomed and closed at [c]. *)
Definition flat_bar (c : float) : Bar := mkBar c c c c 0%float.

Definition bars (closes : list float) : DataFrame := map flat_bar closes.

(** A provider without state: AAA and AAPL have a history, BBB is known
    but has no rows, ZERO closed at 0 the day before, anything else makes
    the request fail. *)
Definition demo_history (sym period interval : str) (pv : unit)
  : res DataFrame * unit :=
  if String.eqb sym "AAA" then (Ok (bars [9; 10]%float), tt)
  else if String.eqb sym "AAPL" then (Ok (bars [10; 11; 9; 12; 13; 14]%float), tt)
  else if String.eqb sym "BBB" then (Ok [], tt)
  else if String.eqb sym "ZERO" then (Ok (bars [0; 5]%float), tt)
  else (Raise (ProviderError "no data"), tt).

(** A provider that fails the first request and answers from then on; its
    state tells whether a request was made before. *)
Definition flaky_history (sym period interval : str) (asked : bool)
  : res DataFrame * bool :=
  if asked then (Ok (bars [9; 10]%float), true)
  else (Raise (ProviderError "timed out"), true).

(** A sort to run [generate_chart] with: insertion from the right, higher
    price first, equal prices in their order. *)
Fixpoint insert_by_price (x : str * float) (l : list (str * float))
  : list (str * float) :=
  match l with
  | [] => [x]
  | y :: r =>
      if (snd x <? snd y)%float then y :: insert_by_price x r else x :: l
  end.

Definition demo_sorted (l : list (str * float)) : list (str * float) :=
  fold_right insert_by_price [] l.

Definition demo_str_exn (e : exn) : str :=
  match e with
  | TypeError => "TypeError"
  | ValueError => "ValueError"
  | KeyError => "KeyError"
  | IndexError => "IndexError"
  | AttributeError => "AttributeError"
  | OverflowError => "OverflowError"
  | ProviderError msg => msg
  end.

(** A coarse rendering of floats, enough to tell the lines apart. *)
Definition demo_format (x : float) : str :=
  if PrimFloat.is_nan x then "nan"
  else if PrimFloat.ltb x 0%float then "-" else "+".

(** A fresh process: nothing printed, no saved file. *)
Definition demo_runtime : Runtime unit := mkRuntime tt [] None.

Definition demo_value := get_value demo_history demo_str_exn.
Definition demo_change := get_daily_change_percent demo_history demo_str_exn.
Definition demo_total := get_total_value demo_history demo_str_exn.
Definition demo_add := add_stock demo_history demo_str_exn.
Definition demo_table :=
  Portfolio_str demo_history demo_format demo_format demo_format demo_str_exn.
Definition demo_run := run demo_history demo_str_exn.

(** A coarse rendering of tables: the number of rows. *)
Definition demo_str_frame (data : DataFrame) : str :=
  str_nat (List.length data) ++ " rows".

Definition demo_machine : Machine unit := mkMachine demo_runtime [].

Definition demo_generate_chart :=
  generate_chart demo_history demo_str_exn demo_sorted.

Definition demo_main :=
  main demo_history demo_format demo_format demo_format demo_str_exn
    demo_str_frame demo_sorted.

(** The holdings of the scenario: two shares of AAA, which closed at 10,
    and one of BBB, for which the provider has no rows. *)
Definition scenario : Portfolio :=
  [("AAA", mkStock (Some 2%Z) "AAA" (Some (bars [9; 10]%float)));
   ("BBB", mkStock (Some 1%Z) "BBB" (Some []))].

(** A quantity beyond binary64: the product [price * qty] of the table
    raises [OverflowError], although the price is there. *)
Definition oversized : Portfolio :=
  [("AAA", mkStock (Some (2 ^ 1024)%Z) "AAA" (Some (bars [9; 10]%float)))].

(* ===================================================================== *)
(** * Facts about the builtins *)
(* ===================================================================== *)

Section Lists.

Variable A : Type.
Implicit Types (l buf pre : list A) (x : A).

Lemma skipn_app_exact n l x :
  (n <= List.length l)%nat -> skipn n (l ++ [x])%list = (skipn n l ++ [x])%list.
Proof.
  intros Hn. rewrite skipn_app.
  replace (n - List.length l)%nat with 0%nat by lia. reflexivity.
Qed.

Lemma firstn_snoc pre x rest :
  firstn (List.length pre + 1) (pre ++ x :: rest)%list = (pre ++ [x])%list.
Proof.
  rewrite firstn_app, firstn_all2 by lia.
  replace (List.length pre + 1 - List.length pre)%nat with 1%nat by lia.
  reflexivity.
Qed.

End Lists.

Lemma trim_short (w : nat) (buf : list float) :
  (List.length buf <= w)%nat -> trim w buf = buf.
Proof.
  intros H. unfold trim.
  replace (List.length buf - w)%nat with 0%nat by lia. reflexivity.
Qed.

Lemma trim_length (w : nat) (buf : list float) :
  List.length (trim w buf) = Nat.min w (List.length buf).
Proof. unfold trim. rewrite length_skipn. lia. Qed.

(** Trimming before or after the next observation arrives gives the same
    window. *)
Lemma trim_push (w : nat) (buf : list float) (x : float) :
  trim w (trim w buf ++ [x])%list = trim w (buf ++ [x])%list.
Proof.
  destruct (Nat.le_gt_cases (List.length buf) w) as [Hle | Hgt].
  - now rewrite (trim_short w buf).
  - unfold trim at 1 3.
    rewrite !length_app, trim_length. cbn [List.length].
    replace (Nat.min w (List.length buf) + 1 - w)%nat with 1%nat by lia.
    unfold trim.
    rewrite <- skipn_app_exact by lia.
    rewrite skipn_skipn. f_equal. lia.
Qed.

Lemma rolling_mean_from_nth (w : nat) (series pre : list float) (j : nat) :
  nth_error (rolling_mean_from w (trim w pre) series) j =
  if (j <? List.length series)%nat
  then Some (rolling_cell w (firstn (List.length pre + j + 1) (pre ++ series)%list))
  else None.
Proof.
  revert pre j. induction series as [| x rest IH]; intros pre j.
  - now destruct j.
  - cbn [rolling_mean_from]. rewrite trim_push. destruct j as [| j].
    + cbn [nth_error List.length Nat.ltb Nat.leb].
      rewrite Nat.add_0_r, firstn_snoc. reflexivity.
    + cbn [nth_error]. rewrite IH.
      change (S j <? List.length (x :: rest))%nat with (j <? List.length rest)%nat.
      rewrite <- app_assoc, length_app. cbn [List.length app].
      replace (List.length pre + 1 + j + 1)%nat with (List.length pre + S j + 1)%nat by lia.
      reflexivity.
Qed.

(** From position [w - 1] on, the window of position [i] is the [w]
    observations that end at [i]. *)
Lemma trim_prefix (w i : nat) (series : list float) :
  (i < List.length series)%nat -> (w <= i + 1)%nat ->
  trim w (firstn (i + 1) series) = firstn w (skipn (i + 1 - w) series).
Proof.
  intros Hi Hw. unfold trim.
  rewrite length_firstn, Nat.min_l by lia.
  rewrite firstn_skipn_comm. f_equal. f_equal. lia.
Qed.

Lemma rolling_mean_nth (w : nat) (series : list float) (i : nat) :
  (0 < w)%nat ->
  nth_error (rolling_mean w series) i =
  if (i <? List.length series)%nat
  then Some (if (i + 1 <? w)%nat then nan
             else window_mean (firstn w (skipn (i + 1 - w) series)))
  else None.
Proof.
  intros Hw. unfold rolling_mean.
  change (@nil float) with (trim w []).
  rewrite rolling_mean_from_nth. cbn [List.length app Nat.add].
  destruct (Nat.ltb_spec i (List.length series)) as [Hi | Hi]; [| reflexivity].
  f_equal. unfold rolling_cell.
  destruct (Nat.ltb_spec (i + 1) w) as [Hs | Hs].
  - rewrite trim_short by (rewrite length_firstn; lia).
    rewrite length_firstn, Nat.min_l by lia.
    destruct (Nat.ltb_spec (i + 1) w); [reflexivity | lia].
  - rewrite trim_prefix by lia.
    rewrite length_firstn, length_skipn, Nat.min_l by lia.
    now rewrite Nat.ltb_irrefl.
Qed.

Lemma rolling_mean_length (w : nat) (series : list float) :
  List.length (rolling_mean w series) = List.length series.
Proof.
  unfold rolling_mean. generalize (@nil float).
  induction series as [| x rest IH]; intros buf; cbn; [reflexivity |].
  now rewrite IH.
Qed.

(** ** Comparisons with a missing value *)

Lemma isna_Prim2SF (x : float) : isna x = true -> Prim2SF x = SpecFloat.S754_nan.
Proof. unfold isna, Prim2SF. now intros ->. Qed.

Lemma ltb_isna_l (x y : float) : isna x = true -> (x <? y)%float = false.
Proof.
  intros H. rewrite ltb_spec, (isna_Prim2SF x H). reflexivity.
Qed.

(* ===================================================================== *)
(** * The moving average and its buy signals *)
(* ===================================================================== *)

Lemma window_mean_five (a b c d e : float) :
  window_mean [a; b; c; d; e] = ((0 + a + b + c + d + e) / 5)%float.
Proof. reflexivity. Qed.

Lemma sma_5_nth_error (data : DataFrame) (i : nat) :
  nth_error (sma_5 data) i =
  if (i <? List.length data)%nat
  then Some (if (i <? 4)%nat then nan
             else window_mean (firstn 5 (skipn (i - 4) (Close_column data))))
  else None.
Proof.
  unfold sma_5. rewrite rolling_mean_nth by lia.
  unfold Close_column at 1. rewrite length_map.
  destruct (i <? List.length data)%nat; [| reflexivity].
  f_equal.
  destruct (Nat.ltb_spec (i + 1) 5), (Nat.ltb_spec i 4); try lia; [reflexivity |].
  do 3 f_equal. lia.
Qed.

Lemma sma_5_nth (data : DataFrame) (i : nat) :
  nth i (sma_5 data) nan =
  if (i <? List.length data)%nat && negb (i <? 4)%nat
  then window_mean (firstn 5 (skipn (i - 4) (Close_column data)))
  else nan.
Proof.
  pose proof (sma_5_nth_error data i) as H.
  destruct (Nat.ltb_spec i (List.length data)) as [Hi | Hi].
  - apply nth_error_nth with (d := nan) in H. rewrite H.
    now destruct (i <? 4)%nat.
  - apply nth_overflow. unfold sma_5.
    rewrite rolling_mean_length. unfold Close_column. now rewrite length_map.
Qed.


Lemma buy_signals_nth (data : DataFrame) (i : nat) :
  nth i (buy_signals data) false =
  (nth i (sma_5 data) nan <? nth i (Close_column data) nan)%float.
Proof.
  unfold buy_signals, series_gt.
  set (gt := fun p : float * float => (snd p <? fst p)%float).
  change false with (gt (nan, nan)).
  rewrite map_nth, combine_nth; [reflexivity |].
  unfold sma_5. now rewrite rolling_mean_length.
Qed.

(** C4. For every bar table and every position [i], the buy signal at [i]
    is set exactly when the moving average at [i] is not missing and the
    close at [i] is above it; at the first four positions, where the
    average is missing, the signal is never set. *)
Theorem buy_signals_iff_above_sma (data : DataFrame) (i : nat) :
  (nth i (buy_signals data) false = true <->
   isna (nth i (sma_5 data) nan) = false
   /\ (nth i (sma_5 data) nan <? nth i (Close_column data) nan)%float = true)
  /\ ((i < 4)%nat -> nth i (buy_signals data) false = false).
Proof.
  rewrite buy_signals_nth. split; [split |].
  - intros Habove. split; [| exact Habove].
    destruct (isna (nth i (sma_5 data) nan)) eqn:Hna; [| reflexivity].
    rewrite ltb_isna_l in Habove by exact Hna. discriminate.
  - now intros [_ Habove].
  - intros Hi. apply ltb_isna_l. rewrite sma_5_nth.
    destruct (Nat.ltb_spec i 4) as [_ | Hge]; [| lia].
    now rewrite andb_false_r.
Qed.

(** On the closes of the example the signal is set at positions 4 and 5. *)
Example buy_signals_example :
  buy_signals (bars [10; 11; 9; 12; 13; 14]%float)
  = [false; false; false; false; true; true].
Proof. vm_compute. reflexivity. Qed.

(* ===================================================================== *)
(** * Integers written and read back *)
(* ===================================================================== *)

Lemma lstrip_no_space (l : list ascii) :
  Forall (fun c => is_space c = false) l -> lstrip l = l.
Proof. destruct 1 as [| c r Hc _]; cbn; [reflexivity | now rewrite Hc]. Qed.

Lemma strip_no_space (l : list ascii) :
  Forall (fun c => is_space c = false) l -> strip l = l.
Proof.
  intros H. unfold strip. rewrite (lstrip_no_space l H).
  rewrite lstrip_no_space by now apply Forall_rev.
  apply rev_involutive.
Qed.

Lemma is_digit_no_space (c : ascii) : is_digit c = true -> is_space c = false.
Proof.
  unfold is_digit, is_space. cbv zeta. intros H.
  apply andb_true_iff in H as [H1 H2].
  apply Nat.leb_le in H1. apply Nat.leb_le in H2.
  apply orb_false_iff.
  split; apply andb_false_iff; right; apply Nat.leb_gt; lia.
Qed.

Lemma int_digits_all_digits (l : list ascii) (after_digit : bool) :
  Forall (fun c => is_digit c = true) l ->
  l <> [] \/ after_digit = true ->
  int_digits after_digit l = Some l.
Proof.
  intros H. revert after_digit.
  induction H as [| c r Hc _ IH]; intros b Hb.
  - destruct Hb as [Hb | ->]; [now destruct Hb | reflexivity].
  - cbn. rewrite Hc, IH by now right. reflexivity.
Qed.

Lemma uint_chars_digits (d : Decimal.uint) :
  Forall (fun c => is_digit c = true) (chars (NilEmpty.string_of_uint d)).
Proof. induction d; cbn; constructor; auto. Qed.

Lemma int_unsigned_string_of_uint (d : Decimal.uint) :
  d <> Decimal.Nil ->
  int_unsigned (chars (NilEmpty.string_of_uint d)) = Some d.
Proof.
  intros Hd. unfold int_unsigned.
  rewrite int_digits_all_digits.
  - unfold chars, of_chars. rewrite string_of_list_ascii_of_string.
    apply NilEmpty.usu.
  - apply uint_chars_digits.
  - left. now destruct d.
Qed.

Lemma strip_uint (d : Decimal.uint) :
  strip (chars (NilEmpty.string_of_uint d)) = chars (NilEmpty.string_of_uint d).
Proof.
  apply strip_no_space.
  eapply Forall_impl; [| apply uint_chars_digits].
  intros c. apply is_digit_no_space.
Qed.

Lemma strip_minus_uint (d : Decimal.uint) :
  strip ("-"%char :: chars (NilEmpty.string_of_uint d))
  = "-"%char :: chars (NilEmpty.string_of_uint d).
Proof.
  apply strip_no_space. constructor; [reflexivity |].
  eapply Forall_impl; [| apply uint_chars_digits].
  intros c. apply is_digit_no_space.
Qed.

Lemma int_of_str_string_of_int (d : Decimal.int) :
  int_of_str (NilZero.string_of_int d) = Ok (Z.of_int d).
Proof.
  destruct d as [d | d];
    (destruct (Decimal.uint_eq_dec d Decimal.Nil) as [-> | Hd]; [reflexivity |]).
  - unfold int_of_str.
    replace (NilZero.string_of_int (Decimal.Pos d))
      with (NilEmpty.string_of_uint d) by now destruct d.
    rewrite strip_uint.
    pose proof (int_unsigned_string_of_uint d Hd) as Hu.
    destruct d; try (now destruct Hd); cbn in Hu |- *; now rewrite Hu.
  - unfold int_of_str.
    replace (NilZero.string_of_int (Decimal.Neg d))
      with (String "-" (NilEmpty.string_of_uint d)) by now destruct d.
    cbn [chars list_ascii_of_string].
    fold (chars (NilEmpty.string_of_uint d)).
    rewrite strip_minus_uint, int_unsigned_string_of_uint by exact Hd.
    reflexivity.
Qed.

(** [int(str(n)) == n] *)
Lemma int_of_str_str_int (n : Z) : int_of_str (str_int n) = Ok n.
Proof.
  unfold str_int. rewrite int_of_str_string_of_int. f_equal.
  apply DecimalZ.of_to.
Qed.

(* ===================================================================== *)
(** * Facts about dictionaries *)
(* ===================================================================== *)

Section Dicts.

Variable V : Type.
Implicit Types (d : dict V) (k : str) (v : V).

Lemma dict_contains_false k d : dict_contains k d = false <-> ~ In k (keys d).
Proof.
  unfold dict_contains. induction d as [| [k' v'] r IH]; cbn.
  - tauto.
  - destruct (String.eqb_spec k' k) as [-> | Hne].
    + split; [discriminate | intros H; exfalso; apply H; now left].
    + rewrite IH. tauto.
Qed.

Lemma dict_contains_true k d : dict_contains k d = true <-> In k (keys d).
Proof.
  destruct (dict_contains k d) eqn:H.
  - split; [intros _ | reflexivity].
    destruct (in_dec string_dec k (keys d)) as [Hin | Hout]; [exact Hin |].
    apply dict_contains_false in Hout. congruence.
  - apply dict_contains_false in H. split; [discriminate | tauto].
Qed.

(** Assigning to a key that is not there appends one entry. *)
Lemma dict_set_fresh k v d :
  dict_contains k d = false -> dict_set k v d = (d ++ [(k, v)])%list.
Proof.
  unfold dict_contains. induction d as [| [k' v'] r IH]; cbn; [reflexivity |].
  destruct (String.eqb k' k); [discriminate |].
  intros H. now rewrite IH.
Qed.

Lemma dict_set_keys k v d :
  keys (dict_set k v d) = if dict_contains k d then keys d else (keys d ++ [k])%list.
Proof.
  unfold dict_contains, keys. induction d as [| [k' v'] r IH]; cbn; [reflexivity |].
  destruct (String.eqb k' k); cbn; [reflexivity |].
  rewrite IH. now destruct (dict_get k r).
Qed.

(** Popping a key that is there removes its one entry and nothing else. *)
Lemma dict_pop_present k d :
  NoDup (keys d) -> dict_contains k d = true ->
  exists before v after,
    d = (before ++ (k, v) :: after)%list
    /\ dict_pop k d = (before ++ after)%list
    /\ ~ In k (keys (before ++ after)%list).
Proof.
  unfold dict_contains. induction d as [| [k' v'] r IH]; cbn; [discriminate |].
  intros Hnd Hin. inversion Hnd as [| ? ? Hk' Hr]; subst.
  destruct (String.eqb_spec k' k) as [-> | Hne].
  - exists [], v', r. cbn. repeat split; auto.
  - destruct (IH Hr Hin) as (before & v & after & -> & Hpop & Hout).
    exists ((k', v') :: before), v, after. cbn. rewrite Hpop.
    repeat split; auto. intros [Heq | Hin']; [congruence | tauto].
Qed.

Lemma dict_set_NoDup k v d : NoDup (keys d) -> NoDup (keys (dict_set k v d)).
Proof.
  intros Hnd. rewrite dict_set_keys.
  destruct (dict_contains k d) eqn:Hk; [exact Hnd |].
  apply dict_contains_false in Hk.
  apply NoDup_app; [exact Hnd | repeat constructor; intros [] |].
  intros a Ha [<- | []]. contradiction.
Qed.

Lemma dict_pop_keys_incl k d : incl (keys (dict_pop k d)) (keys d).
Proof.
  unfold keys. induction d as [| [k' v'] r IH]; cbn; [apply incl_refl |].
  destruct (String.eqb k' k); cbn.
  - apply incl_tl, incl_refl.
  - apply incl_cons; [now left | now apply incl_tl].
Qed.

Lemma dict_pop_NoDup k d : NoDup (keys d) -> NoDup (keys (dict_pop k d)).
Proof.
  unfold keys. induction d as [| [k' v'] r IH]; cbn; [auto |].
  intros Hnd. inversion Hnd as [| ? ? Hout Hr]; subst.
  destruct (String.eqb k' k); cbn; [exact Hr |].
  constructor; [| now apply IH].
  intros Hin. apply Hout. now apply (dict_pop_keys_incl k r).
Qed.

Lemma dict_pop_incl k d : incl (dict_pop k d) d.
Proof.
  induction d as [| [k' v'] r IH]; cbn; [apply incl_refl |].
  destruct (String.eqb k' k).
  - apply incl_tl, incl_refl.
  - now apply incl_cons; [left | apply incl_tl].
Qed.

End Dicts.

Arguments dict_contains_false {V} k d.
Arguments dict_contains_true {V} k d.
Arguments dict_set_fresh {V} k v d.
Arguments dict_set_keys {V} k v d.
Arguments dict_pop_present {V} k d.
Arguments dict_pop_incl {V} k d.
Arguments dict_set_NoDup {V} k v d.
Arguments dict_pop_NoDup {V} k d.

Lemma upper_char_idempotent (c : ascii) : upper_char (upper_char c) = upper_char c.
Proof. destruct c as [[] [] [] [] [] [] [] []]; reflexivity. Qed.

Lemma upper_idempotent (s : str) : upper (upper s) = upper s.
Proof.
  induction s as [| c r IH]; cbn; [reflexivity |].
  now rewrite upper_char_idempotent, IH.
Qed.

(* ===================================================================== *)
(** * Facts about one bar table *)
(* ===================================================================== *)

Lemma iloc_back_nth (k : nat) (series : list float) :
  (1 <= k <= List.length series)%nat ->
  iloc_back k series = Ok (nth (List.length series - k) series nan).
Proof.
  intros [H1 H2]. unfold iloc_back.
  destruct (Nat.leb_spec 1 k); [| lia].
  destruct (Nat.leb_spec k (List.length series)); [| lia]. cbn.
  destruct (nth_error series (List.length series - k)) eqn:E.
  - now rewrite (nth_error_nth _ _ _ E).
  - apply nth_error_None in E. lia.
Qed.

Lemma change_percent_daily_change (table : DataFrame) :
  (2 <= List.length table)%nat ->
  option_map Ok (daily_change table) = Some (change_percent (Close_column table)).
Proof.
  intros H. unfold daily_change, change_percent.
  destruct (Nat.ltb_spec (List.length table) 2); [lia |].
  assert (List.length (Close_column table) = List.length table) as Hlen
    by apply length_map.
  rewrite !iloc_back_nth by lia. now rewrite Hlen.
Qed.

Lemma latest_price_nonempty (table : DataFrame) :
  empty table = false ->
  option_map Ok (latest_price table) = Some (iloc_back 1 (Close_column table)).
Proof.
  intros H. unfold latest_price.
  assert (List.length (Close_column table) = List.length table) as Hlen
    by apply length_map.
  assert (1 <= List.length table)%nat by (destruct table; [discriminate | cbn; lia]).
  rewrite iloc_back_nth by lia. rewrite Hlen.
  destruct (nth_error (Close_column table) (List.length table - 1)) eqn:E.
  - now rewrite (nth_error_nth _ _ _ E).
  - apply nth_error_None in E. lia.
Qed.

Lemma latest_price_empty (table : DataFrame) :
  empty table = true -> latest_price table = None.
Proof. destruct table; [reflexivity | discriminate]. Qed.

(* ===================================================================== *)
(** * class Stock: what the methods return *)
(* ===================================================================== *)

Section StockFacts.

Context {Provider : Type}.
Variable history : str -> str -> str -> Provider -> res DataFrame * Provider.
Variable str_exn : exn -> str.

Local Abbreviation get_data' := (get_data history str_exn).
Local Abbreviation get_price' := (get_price history str_exn).
Local Abbreviation get_value' := (get_value history str_exn).
Local Abbreviation get_daily_change_percent' := (get_daily_change_percent history str_exn).

Local Notation "x <- m ;; k" := (bind m (fun x => k))
  (at level 61, m at next level, right associativity).
Local Notation "m ;;; k" := (bind m (fun _ => k))
  (at level 61, right associativity).

Implicit Types (self : Stock) (rt : Runtime Provider) (table : DataFrame).

Lemma get_data_cached period interval self rt table :
  data self = Some table ->
  get_data' period interval false self rt = (Ok (Some table), self, rt).
Proof. unfold get_data. now intros ->. Qed.

Lemma get_data_fetch period interval self rt :
  data self = None ->
  get_data' period interval false self rt =
  match history (symbol self) period interval (provider rt) with
  | (Ok table, pv) =>
      (Ok (Some table), set_data (Some table) self, set_provider pv rt)
  | (Raise e, pv) =>
      (Ok None, self,
       print ("Error fetching data for " ++ symbol self ++ ": " ++ str_exn e)
             (set_provider pv rt))
  end.
Proof. unfold get_data. now intros ->. Qed.

(** What [get_price] does with the table it got: the [except] branch is
    never taken, since [iloc[-1]] is only asked of a table with a row. *)
Lemma price_of_table table self rt :
  (if empty table then ret None
   else
     match iloc_back 1 (Close_column table) with
     | Ok price => ret (Some price)
     | Raise e =>
         self0 <- get_self ;;
         say ("Error fetching price for " ++ symbol self0 ++ ": " ++ str_exn e) ;;;
         ret None
     end) self rt
  = (Ok (latest_price table), self, rt).
Proof.
  destruct (empty table) eqn:E.
  - now rewrite latest_price_empty.
  - pose proof (latest_price_nonempty table E) as H.
    destruct (iloc_back 1 (Close_column table)), (latest_price table);
      cbn in H; try discriminate; now inversion H.
Qed.

Lemma get_price_cached self rt table :
  data self = Some table ->
  get_price' self rt = (Ok (latest_price table), self, rt).
Proof.
  intros H. unfold get_price, bind at 1.
  rewrite (get_data_cached _ _ _ _ _ H). apply price_of_table.
Qed.

Lemma get_price_fetch self rt :
  data self = None ->
  get_price' self rt =
  match history (symbol self) "1mo" "1d" (provider rt) with
  | (Ok table, pv) =>
      (Ok (latest_price table), set_data (Some table) self,
       set_provider pv rt)
  | (Raise e, pv) =>
      (Ok None, self,
       print ("Error fetching data for " ++ symbol self ++ ": " ++ str_exn e)
             (set_provider pv rt))
  end.
Proof.
  intros H. unfold get_price, bind at 1.
  rewrite (get_data_fetch _ _ _ _ H).
  destruct (history (symbol self) "1mo" "1d" (provider rt)) as [[table | e] pv].
  - apply price_of_table.
  - reflexivity.
Qed.

(** What [get_daily_change_percent] does with the table it got: again the
    [except] branch is never taken, neither lookup fails on two rows and
    the arithmetic raises nothing. *)
Lemma change_of_table table self rt :
  (if (List.length table <? 2)%nat then ret None
   else
     match change_percent (Close_column table) with
     | Ok change => ret (Some change)
     | Raise e =>
         self0 <- get_self ;;
         say ("Error calculating daily change for " ++ symbol self0 ++ ": "
              ++ str_exn e) ;;;
         ret None
     end) self rt
  = (Ok (daily_change table), self, rt).
Proof.
  destruct (Nat.ltb_spec (List.length table) 2) as [Hlt | Hge].
  - unfold daily_change. destruct (Nat.ltb_spec (List.length table) 2); [reflexivity | lia].
  - pose proof (change_percent_daily_change table Hge) as H.
    destruct (change_percent (Close_column table)), (daily_change table);
      cbn in H; try discriminate; now inversion H.
Qed.

Lemma get_daily_change_percent_cached self rt table :
  data self = Some table ->
  get_daily_change_percent' self rt = (Ok (daily_change table), self, rt).
Proof.
  intros H. unfold get_daily_change_percent, bind at 1.
  rewrite (get_data_cached _ _ _ _ _ H). apply change_of_table.
Qed.

Lemma get_daily_change_percent_fetch self rt :
  data self = None ->
  get_daily_change_percent' self rt =
  match history (symbol self) "1mo" "1d" (provider rt) with
  | (Ok table, pv) =>
      (Ok (daily_change table), set_data (Some table) self,
       set_provider pv rt)
  | (Raise e, pv) =>
      (Ok None, self,
       print ("Error fetching data for " ++ symbol self ++ ": " ++ str_exn e)
             (set_provider pv rt))
  end.
Proof.
  intros H. unfold get_daily_change_percent, bind at 1.
  rewrite (get_data_fetch _ _ _ _ H).
  destruct (history (symbol self) "1mo" "1d" (provider rt)) as [[table | e] pv].
  - apply change_of_table.
  - reflexivity.
Qed.

(** Neither query raises, and neither touches the holding or the file. *)
Lemma get_price_returns self rt :
  exists price self' rt',
    get_price' self rt = (Ok price, self', rt')
    /\ same_holding self rt self' rt'
    /\ (forall table, data self = Some table ->
        price = latest_price table /\ self' = self /\ rt' = rt).
Proof.
  destruct (data self) as [table |] eqn:Hd.
  - exists (latest_price table), self, rt.
    rewrite (get_price_cached _ _ _ Hd). repeat split; auto; congruence.
  - rewrite (get_price_fetch _ _ Hd).
    destruct (history (symbol self) "1mo" "1d" (provider rt)) as [[table | e] pv];
      do 3 eexists; (split; [reflexivity |]); repeat split; discriminate.
Qed.

Lemma get_daily_change_percent_returns self rt :
  exists change self' rt',
    get_daily_change_percent' self rt = (Ok change, self', rt')
    /\ same_holding self rt self' rt'
    /\ (forall table, data self = Some table ->
        change = daily_change table /\ self' = self /\ rt' = rt).
Proof.
  destruct (data self) as [table |] eqn:Hd.
  - exists (daily_change table), self, rt.
    rewrite (get_daily_change_percent_cached _ _ _ Hd).
    repeat split; auto; congruence.
  - rewrite (get_daily_change_percent_fetch _ _ Hd).
    destruct (history (symbol self) "1mo" "1d" (provider rt)) as [[table | e] pv];
      do 3 eexists; (split; [reflexivity |]); repeat split; discriminate.
Qed.

(** [get_value] multiplies whatever [get_price] returned. *)
Lemma get_value_unfold self rt price self' rt' :
  get_price' self rt = (Ok price, self', rt') ->
  get_value' self rt = (py_mul price (quantity self'), self', rt').
Proof. intros H. unfold get_value, bind, get_self, eval. now rewrite H. Qed.

End StockFacts.

(* ===================================================================== *)
(** * Values and totals *)
(* ===================================================================== *)

Section ValueFacts.

Context {Provider : Type}.
Variable history : str -> str -> str -> Provider -> res DataFrame * Provider.
Variable str_exn : exn -> str.

Implicit Types (self : Stock) (rt : Runtime Provider).

(** With a price and a quantity that binary64 can hold, the value is their
    product. *)
Lemma get_value_present self rt price self' rt' q f :
  get_price history str_exn self rt = (Ok (Some price), self', rt') ->
  quantity self' = Some q ->
  float_of_int q = Ok f ->
  get_value history str_exn self rt = (Ok (price * f)%float, self', rt').
Proof.
  intros Hp Hq Hf. rewrite (get_value_unfold _ _ _ _ _ _ _ Hp), Hq.
  cbn. now rewrite Hf.
Qed.

(** C6. For every holding whose quote is absent ([get_price] returns
    [None]), [get_value] does not return an absent value: the product
    [None * quantity] raises [TypeError]. *)
Theorem get_value_absent_price_raises self rt self' rt' :
  get_price history str_exn self rt = (Ok None, self', rt') ->
  get_value history str_exn self rt = (Raise TypeError, self', rt').
Proof.
  intros Hp. now rewrite (get_value_unfold _ _ _ _ _ _ _ Hp).
Qed.

(** C2. For every holding with at least two bars, [get_daily_change_percent]
    returns the IEEE quotient [(close[-1] - close[-2]) / close[-2] * 100]
    whatever the prior close is: binary64 division by zero raises nothing,
    so a prior close of zero gives an infinity or [nan], not [None]. *)
Theorem daily_change_two_bars_never_absent self rt (table : DataFrame) :
  data self = Some table ->
  (2 <= List.length table)%nat ->
  get_daily_change_percent history str_exn self rt =
  (Ok (Some (((nth (List.length table - 1) (Close_column table) nan
               - nth (List.length table - 2) (Close_column table) nan)
              / nth (List.length table - 2) (Close_column table) nan) * 100)%float),
   self, rt).
Proof.
  intros Hd Hlen. rewrite (get_daily_change_percent_cached _ _ _ _ _ Hd).
  unfold daily_change.
  destruct (Nat.ltb_spec (List.length table) 2); [lia | reflexivity].
Qed.

(** With fewer than two bars, or no table at all, the change is absent. *)
Lemma daily_change_short_table_absent self rt (table : DataFrame) :
  data self = Some table ->
  (List.length table < 2)%nat ->
  get_daily_change_percent history str_exn self rt = (Ok None, self, rt).
Proof.
  intros Hd Hlen. rewrite (get_daily_change_percent_cached _ _ _ _ _ Hd).
  unfold daily_change.
  destruct (Nat.ltb_spec (List.length table) 2); [reflexivity | lia].
Qed.

Lemma daily_change_fetch_failed_absent self rt e pv :
  data self = None ->
  history (symbol self) "1mo" "1d" (provider rt) = (Raise e, pv) ->
  exists rt', get_daily_change_percent history str_exn self rt = (Ok None, self, rt').
Proof.
  intros Hd Hh. rewrite (get_daily_change_percent_fetch _ _ _ _ Hd), Hh.
  now eexists.
Qed.

Lemma for_items_get_value_unpriced (before after : Portfolio) key self rt :
  Forall (fun kv => valued (snd kv)) before ->
  unpriced self ->
  for_items (fun _ => get_value history str_exn)
    (before ++ (key, self) :: after)%list rt
  = (Raise TypeError, (before ++ (key, self) :: after)%list, rt).
Proof.
  intros Hbefore (table & Hd & Hnone).
  induction Hbefore as [| [k stock] rest (t & p & q & f & Hdk & Hp & Hq & Hf) _ IH].
  - cbn [app for_items].
    rewrite (get_value_unfold _ _ _ _ _ _ _ (get_price_cached _ _ _ _ _ Hd)).
    now rewrite Hnone.
  - cbn [app for_items]. cbn [snd] in Hdk, Hq.
    pose proof (get_price_cached history str_exn stock rt t Hdk) as Hprice.
    rewrite Hp in Hprice.
    rewrite (get_value_present _ _ _ _ _ _ _ Hprice Hq Hf), IH. reflexivity.
Qed.

(** C1. For every portfolio in which some holding has no price while the
    holdings before it have their value, [get_total_value] does not return
    an absent total: the product [None * quantity] of that holding raises
    [TypeError], and the sum raises with it. On the scenario (AAA: quantity
    2, price 10; BBB: no price) the total is that exception. *)
Theorem total_value_absent_price_raises (before after : Portfolio) key self rt :
  Forall (fun kv => valued (snd kv)) before ->
  unpriced self ->
  get_total_value history str_exn (before ++ (key, self) :: after)%list rt
  = (Raise TypeError, (before ++ (key, self) :: after)%list, rt).
Proof.
  intros Hbefore Hself. unfold get_total_value.
  now rewrite (for_items_get_value_unpriced before after key self rt Hbefore Hself).
Qed.

End ValueFacts.

Lemma get_value_absent_price_raises_witness :
  demo_value (mkStock (Some 1%Z) "BBB" None) demo_runtime
  = (Raise TypeError, mkStock (Some 1%Z) "BBB" (Some []), demo_runtime).
Proof.
  apply (get_value_absent_price_raises demo_history demo_str_exn).
  reflexivity.
Defined.

(** A prior close of zero: the change of ZERO, which went from 0 to 5, is
    reported as [+inf]. *)
Lemma daily_change_two_bars_never_absent_witness :
  demo_change (mkStock (Some 2%Z) "ZERO" (Some (bars [0; 5]%float))) demo_runtime
  = (Ok (Some infinity),
     mkStock (Some 2%Z) "ZERO" (Some (bars [0; 5]%float)), demo_runtime).
Proof.
  exact (daily_change_two_bars_never_absent demo_history demo_str_exn
           (mkStock (Some 2%Z) "ZERO" (Some (bars [0; 5]%float))) demo_runtime
           (bars [0; 5]%float) eq_refl (le_n 2)).
Defined.

(** The scenario: AAA (quantity 2, price 10) has its value, BBB has no
    price, and the total is the exception. *)
Lemma total_value_absent_price_raises_witness :
  demo_total scenario demo_runtime = (Raise TypeError, scenario, demo_runtime).
Proof.
  apply (total_value_absent_price_raises demo_history demo_str_exn
           [("AAA", mkStock (Some 2%Z) "AAA" (Some (bars [9; 10]%float)))] []
           "BBB" (mkStock (Some 1%Z) "BBB" (Some [])) demo_runtime).
  - repeat constructor.
    exists (bars [9; 10]%float), 10%float, 2%Z, 2%float. repeat split.
  - exists []. split; reflexivity.
Defined.

(** When every holding has a price the total is the sum of the values. *)
Example total_value_all_priced :
  demo_total
    [("AAA", mkStock (Some 2%Z) "AAA" None); ("AAPL", mkStock (Some 1%Z) "AAPL" None)]
    demo_runtime
  = (Ok 34%float,
     [("AAA", mkStock (Some 2%Z) "AAA" (Some (bars [9; 10]%float)));
      ("AAPL", mkStock (Some 1%Z) "AAPL" (Some (bars [10; 11; 9; 12; 13; 14]%float)))],
     demo_runtime).
Proof. vm_compute. reflexivity. Qed.

(* ===================================================================== *)
(** * class Portfolio: adding and removing *)
(* ===================================================================== *)

Section LedgerFacts.

Context {Provider : Type}.
Variable history : str -> str -> str -> Provider -> res DataFrame * Provider.
Variable str_exn : exn -> str.

Implicit Types (stocks : Portfolio) (rt : Runtime Provider) (ticker : str).


(** C10. For every portfolio (a dictionary: no key twice) and ticker,
    [remove_stock] on a key that is present deletes the one entry under that
    key and leaves every other entry (key and holding, with its symbol,
    quantity and cached table) as it was and in the same order; on a key
    that is absent it reports [UnknownSymbol] and leaves the whole mapping
    as it was. *)
Theorem remove_stock_frame ticker stocks rt :
  NoDup (keys stocks) ->
  (dict_contains ticker stocks = true ->
   exists before stock after,
     stocks = (before ++ (ticker, stock) :: after)%list
     /\ ~ In ticker (keys (before ++ after)%list)
     /\ remove_stock ticker stocks rt
        = (Ok tt, (before ++ after)%list,
           print ("Removed stock " ++ ticker ++ " from portfolio") rt))
  /\ (dict_contains ticker stocks = false ->
      remove_stock ticker stocks rt
      = (Ok tt, stocks, print (UnknownSymbol ticker) rt)).
Proof.
  intros Hnd. split; intros Hk; unfold remove_stock; rewrite Hk.
  - destruct (dict_pop_present ticker stocks Hnd Hk)
      as (before & stock & after & Hsplit & Hpop & Hout).
    exists before, stock, after. rewrite Hpop. auto.
  - reflexivity.
Qed.

End LedgerFacts.

Lemma remove_stock_frame_witness :
  (exists before stock after,
      scenario = (before ++ ("AAA", stock) :: after)%list
      /\ ~ In "AAA" (keys (before ++ after)%list)
      /\ remove_stock "AAA" scenario demo_runtime
         = (Ok tt, (before ++ after)%list,
            print "Removed stock AAA from portfolio" demo_runtime))
  /\ remove_stock "CCC" (dict_pop "AAA" scenario) demo_runtime
     = (Ok tt, dict_pop "AAA" scenario, print (UnknownSymbol "CCC") demo_runtime).
Proof.
  assert (NoDup (keys scenario)) as Hnd.
  { repeat constructor; cbn; intuition discriminate. }
  split.
  - apply (remove_stock_frame "AAA" scenario demo_runtime Hnd). reflexivity.
  - assert (NoDup (keys (dict_pop "AAA" scenario))) as Hnd'.
    { repeat constructor; cbn; intuition discriminate. }
    apply (remove_stock_frame "CCC" (dict_pop "AAA" scenario) demo_runtime Hnd').
    reflexivity.
Defined.

(** Adding on the small provider: a duplicate, an unknown ticker, a ticker
    without rows, and a good one. *)
Example add_stock_examples :
  (let '(_, stocks, rt) := demo_add "AAA" 5%Z scenario demo_runtime in
   stocks = scenario /\ stdout rt = [DuplicateSymbol "AAA"])
  /\ (let '(_, stocks, rt) := demo_add "NOPE" 5%Z scenario demo_runtime in
      stocks = scenario /\ last (stdout rt) "" = InvalidSymbol "NOPE")
  /\ (let '(_, stocks, rt) := demo_add "BBB" 5%Z [] demo_runtime in
      stocks = [] /\ last (stdout rt) "" = InvalidSymbol "BBB")
  /\ (let '(_, stocks, rt) := demo_add "AAPL" 5%Z scenario demo_runtime in
      stocks = (scenario ++
                [("AAPL", mkStock (Some 5%Z) "AAPL"
                            (Some (bars [10; 11; 9; 12; 13; 14]%float)))])%list).
Proof. vm_compute. repeat split. Qed.

(* ===================================================================== *)
(** * class Portfolio: the table *)
(* ===================================================================== *)

Section TableFacts.

Context {Provider : Type}.
Variable history : str -> str -> str -> Provider -> res DataFrame * Provider.
Variables format_2f format_plus_2f str_float : float -> str.
Variable str_exn : exn -> str.

Local Abbreviation table_row' :=
  (table_row history format_2f format_plus_2f str_float str_exn).
Local Abbreviation Portfolio_str' :=
  (Portfolio_str history format_2f format_plus_2f str_float str_exn).

Implicit Types (self : Stock) (stocks : Portfolio) (rt : Runtime Provider).

Lemma table_row_unfold ticker self rt price self1 rt1 change self2 rt2 :
  get_price history str_exn self rt = (Ok price, self1, rt1) ->
  get_daily_change_percent history str_exn self1 rt1 = (Ok change, self2, rt2) ->
  table_row' ticker self rt = (row_text format_2f format_plus_2f str_float ticker price change (quantity self1),
     self2, rt2).
Proof.
  intros Hp Hc. unfold table_row, bind at 1. rewrite Hp.
  unfold bind at 1, get_self. unfold bind at 1. rewrite Hc.
  unfold row_text.
  destruct price as [p |], (quantity self1) as [q |]; try reflexivity.
  unfold bind, eval, ret. cbn. now destruct (float_of_int q).
Qed.

Lemma table_row_returns ticker self rt :
  (forall q, quantity self = Some q -> in_float_range q) ->
  exists line self' rt',
    table_row' ticker self rt = (Ok line, self', rt')
    /\ shows format_2f format_plus_2f str_float (ticker, self) line
    /\ same_holding self rt self' rt'.
Proof.
  intros Hq.
  destruct (get_price_returns history str_exn self rt)
    as (price & self1 & rt1 & Hp & (Hs1 & Hq1 & Hf1) & Hcached1).
  destruct (get_daily_change_percent_returns history str_exn self1 rt1)
    as (change & self2 & rt2 & Hc & (Hs2 & Hq2 & Hf2) & Hcached2).
  rewrite (table_row_unfold _ _ _ _ _ _ _ _ _ Hp Hc), Hq1.
  assert (exists line,
             row_text format_2f format_plus_2f str_float ticker price change
               (quantity self) = Ok line)
    as [line Hline].
  { unfold row_text. destruct price as [p |]; [| now eexists].
    destruct (quantity self) as [q |] eqn:E; [| now eexists].
    specialize (Hq q eq_refl). unfold in_float_range in Hq.
    destruct (float_of_int q); [now eexists | discriminate]. }
  exists line, self2, rt2. rewrite Hline. split; [reflexivity |]. split.
  - exists price, change. split; [exact Hline |].
    intros table Hd. cbn [snd] in Hd.
    destruct (Hcached1 table Hd) as (-> & -> & ->).
    now destruct (Hcached2 table Hd) as (-> & _).
  - repeat split; congruence.
Qed.

Lemma for_items_table_rows stocks rt :
  quantities_in_float_range stocks ->
  exists lines stocks' rt',
    for_items table_row' stocks rt = (Ok lines, stocks', rt')
    /\ Forall2 (shows format_2f format_plus_2f str_float) stocks lines
    /\ Forall2 same_entry stocks stocks'
    /\ portfolio_csv rt' = portfolio_csv rt.
Proof.
  intros Hrange. revert rt.
  induction Hrange as [| [key stock] rest Hq _ IH]; intros rt.
  - exists [], [], rt. cbn. auto.
  - destruct (table_row_returns key stock rt Hq)
      as (line & stock' & rt1 & Hrow & Hshows & Hs & Hqty & Hf1).
    destruct (IH rt1) as (lines & rest' & rt2 & Hrest & Hall & Hsame & Hf2).
    exists (line :: lines), ((key, stock') :: rest'), rt2.
    cbn [for_items]. rewrite Hrow, Hrest.
    repeat split; auto; try congruence.
    constructor; [| exact Hsame]. repeat split; auto.
Qed.


(** A holding without a price shows as the error line of its ticker. *)
Lemma shows_absent_price key self line table :
  data self = Some table -> latest_price table = None ->
  shows format_2f format_plus_2f str_float (key, self) line ->
  line = error_line str_float key None (quantity self).
Proof.
  intros Hd Hnone (price & change & Hrow & Hcached).
  destruct (Hcached table Hd) as (-> & _). rewrite Hnone in Hrow.
  cbn in Hrow. now inversion Hrow.
Qed.

End TableFacts.


(** The table of the scenario: a line for AAA, the error line for BBB. *)
Example table_of_scenario :
  fst (fst (demo_table scenario demo_runtime))
  = Ok (table_header
        ++ holding_line demo_format demo_format "AAA" 10 (Some 11.11111111111111)%float
             2 20
        ++ error_line demo_format "BBB" None (Some 1%Z)).
Proof. vm_compute. reflexivity. Qed.


(* ===================================================================== *)
(** * Saving and loading *)
(* ===================================================================== *)

Lemma load_rows_saved_records (stocks acc : Portfolio) :
  NoDup (keys acc ++ keys stocks)%list ->
  Forall (fun kv => quantity (snd kv) <> None) stocks ->
  load_rows ["Ticker"; "Quantity"] (saved_records stocks) acc
  = ((acc ++ map reloaded stocks)%list, None).
Proof.
  revert acc. induction stocks as [| [k s] rest IH]; intros acc Hnd Hq.
  - cbn. now rewrite app_nil_r.
  - inversion Hq as [| ? ? Hqs Hrest]; subst. cbn [snd] in Hqs.
    destruct (quantity s) as [q |] eqn:Eq; [| now destruct Hqs].
    cbn [saved_records map fst snd load_rows].
    assert (csv_record k s = [k; str_int q]) as ->
      by (unfold csv_record; now rewrite Eq).
    unfold load_row. cbn [row_get row_lookup String.eqb Ascii.eqb Bool.eqb].
    cbn [py_int]. rewrite int_of_str_str_int.
    cbn [keys map fst] in Hnd.
    rewrite dict_set_fresh.
    + fold (saved_records rest). rewrite IH.
      * rewrite <- app_assoc. unfold reloaded at 2. cbn [app fst snd].
        rewrite Eq. reflexivity.
      * unfold keys in *. rewrite map_app, <- app_assoc. exact Hnd.
      * exact Hrest.
    + apply dict_contains_false. apply NoDup_remove_2 in Hnd.
      intros Hin. apply Hnd. apply in_or_app. now left.
Qed.

Section PersistenceFacts.

Context {Provider : Type}.
Variable str_exn : exn -> str.

Implicit Types (stocks : Portfolio) (rt : Runtime Provider).

Lemma Portfolio_init_after_save stocks rt :
  NoDup (keys stocks) ->
  Forall (fun kv => quantity (snd kv) <> None) stocks ->
  fst (Portfolio_init str_exn (snd (save_to_csv stocks rt))) = map reloaded stocks.
Proof.
  intros Hnd Hq. unfold save_to_csv, Portfolio_init.
  cbn [snd portfolio_csv print set_portfolio_csv].
  fold (saved_records stocks).
  now rewrite (load_rows_saved_records stocks [] Hnd Hq).
Qed.


End PersistenceFacts.


(** The saved file of the scenario, and a hand-written file with a blank
    record and a quantity that is no integer. *)
Example saved_file_of_scenario :
  portfolio_csv (snd (save_to_csv scenario demo_runtime))
  = Some [["Ticker"; "Quantity"]; ["AAA"; "2"]; ["BBB"; "1"]].
Proof. reflexivity. Qed.

Example load_stops_at_malformed_record :
  Portfolio_init demo_str_exn
    (mkRuntime tt []
       (Some [["Ticker"; "Quantity"]; ["AAA"; " 2 "]; []; ["BBB"; "one"]; ["CCC"; "3"]]))
  = ([("AAA", mkStock (Some 2%Z) "AAA" None)],
     mkRuntime tt ["Error loading portfolio: ValueError"]
       (Some [["Ticker"; "Quantity"]; ["AAA"; " 2 "]; []; ["BBB"; "one"]; ["CCC"; "3"]])).
Proof. vm_compute. reflexivity. Qed.

(* ===================================================================== *)
(** * Keys and symbols *)
(* ===================================================================== *)

Lemma Forall_dict_set {V} (P : str * V -> Prop) (k : str) (v : V) (d : dict V) :
  Forall P d -> P (k, v) -> Forall P (dict_set k v d).
Proof.
  intros Hd Hkv. induction Hd as [| [k' v'] r Hx Hr IH]; cbn.
  - now constructor.
  - destruct (String.eqb_spec k' k) as [-> | _]; now constructor.
Qed.

Lemma Forall_dict_pop {V} (P : str * V -> Prop) (k : str) (d : dict V) :
  Forall P d -> Forall P (dict_pop k d).
Proof. intros Hd. eapply incl_Forall; [apply dict_pop_incl | exact Hd]. Qed.

Lemma load_rows_key_is_symbol (fieldnames : list str) (rows : list (list str))
  (acc : Portfolio) :
  Forall (fun row => forall t,
              row_get "Ticker" fieldnames row = Ok (Some t) -> upper t = t) rows ->
  key_is_symbol acc ->
  key_is_symbol (fst (load_rows fieldnames rows acc)).
Proof.
  intros Hrows. revert acc.
  induction Hrows as [| row rest Hrow _ IH]; intros acc Hacc; [exact Hacc |].
  cbn [load_rows]. destruct row as [| field fields]; [now apply IH |].
  unfold load_row.
  destruct (row_get "Ticker" fieldnames (field :: fields)) as [ticker | e] eqn:Et;
    [| exact Hacc].
  destruct (row_get "Quantity" fieldnames (field :: fields)) as [raw | e];
    [| exact Hacc].
  destruct (py_int raw) as [qty | e]; [| exact Hacc].
  destruct ticker as [t |]; [| exact Hacc].
  apply IH. apply Forall_dict_set; [exact Hacc |].
  specialize (Hrow t eq_refl). cbn. rewrite Hrow. now split.
Qed.

Lemma Forall_lstrip (P : ascii -> Prop) (l : list ascii) :
  Forall P l -> Forall P (lstrip l).
Proof.
  induction 1 as [| c r Hc Hr IH]; cbn; [constructor |].
  destruct (is_space c); [exact IH | now constructor].
Qed.

Lemma Forall_strip (P : ascii -> Prop) (l : list ascii) :
  Forall P l -> Forall P (strip l).
Proof.
  intros H. unfold strip.
  apply Forall_rev, Forall_lstrip, Forall_rev, Forall_lstrip, H.
Qed.

Lemma upper_of_chars (l : list ascii) :
  upper (of_chars l) = of_chars (map upper_char l).
Proof.
  unfold of_chars. induction l as [| c r IH]; cbn; [reflexivity | now rewrite IH].
Qed.

Lemma chars_upper (s : str) : chars (upper s) = map upper_char (chars s).
Proof.
  unfold chars. induction s as [| c r IH]; cbn; [reflexivity | now f_equal].
Qed.

(** What the command loop hands to the portfolio is upper case. *)
Lemma read_ticker_upper (typed : str) :
  upper (read_ticker typed) = read_ticker typed.
Proof.
  unfold read_ticker. rewrite upper_of_chars. f_equal.
  assert (Forall (fun c => upper_char c = c) (strip (chars (upper typed)))) as H.
  { apply Forall_strip. rewrite chars_upper. apply Forall_map.
    apply Forall_forall. intros c _. apply upper_char_idempotent. }
  induction H as [| c r Hc _ IH]; cbn; [reflexivity |].
  now rewrite Hc, IH.
Qed.

Section InvariantFacts.

Context {Provider : Type}.
Variable history : str -> str -> str -> Provider -> res DataFrame * Provider.
Variable str_exn : exn -> str.

Implicit Types (stocks : Portfolio) (rt : Runtime Provider).

(** [add_stock] either leaves the mapping alone or assigns, under the
    ticker it was given, a holding whose symbol is the upper-cased ticker;
    it never writes the file. *)
Lemma add_stock_shape ticker qty stocks rt :
  exists stocks' rt',
    add_stock history str_exn ticker qty stocks rt = (Ok tt, stocks', rt')
    /\ portfolio_csv rt' = portfolio_csv rt
    /\ (stocks' = stocks
        \/ exists holding,
            stocks' = dict_set ticker holding stocks
            /\ symbol holding = upper ticker
            /\ quantity holding = Some qty).
Proof.
  unfold add_stock.
  destruct (dict_contains ticker stocks).
  - do 2 eexists. split; [reflexivity |]. split; [reflexivity | now left].
  - destruct (get_price_returns history str_exn (Stock_init ticker)
                (print ("Validating " ++ ticker ++ "...") rt))
      as (price & new_stock & rt2 & -> & (Hs & _ & Hf) & _).
    destruct price as [p |]; do 2 eexists; (split; [reflexivity |]);
      (split; [exact Hf |]).
    + right. eexists. split; [reflexivity |]. now split.
    + now left.
Qed.

Lemma step_well_keyed (c : command) (state : Portfolio * Runtime Provider) :
  upper_case_command c -> well_keyed state -> well_keyed (step history str_exn c state).
Proof.
  destruct state as [stocks rt]. intros Hc [Hkeys Hfile]. cbn [fst snd] in *.
  destruct c as [| ticker qty | ticker |]; cbn [step fst snd].
  - (* Load *)
    unfold Portfolio_init.
    destruct (portfolio_csv rt) as [[| fieldnames rows] |] eqn:Ef;
      try (split; cbn; [constructor | now rewrite ?Ef]).
    pose proof (load_rows_key_is_symbol fieldnames rows [] Hfile (Forall_nil _)) as H.
    destruct (load_rows fieldnames rows []) as [loaded [e |]];
      (split; cbn [fst snd portfolio_csv print]; [exact H | now rewrite Ef]).
  - (* Add *)
    destruct (add_stock_shape ticker qty stocks rt)
      as (stocks' & rt' & -> & Hf & Hshape).
    split; cbn [fst snd]; [| now rewrite Hf].
    destruct Hshape as [-> | (holding & -> & Hs & _)]; [exact Hkeys |].
    apply Forall_dict_set; [exact Hkeys |].
    cbn in Hc |- *. rewrite Hs, Hc. split; [reflexivity | exact Hc].
  - (* Remove *)
    unfold remove_stock. destruct (dict_contains ticker stocks);
      (split; cbn [fst snd portfolio_csv print]; [| exact Hfile]).
    + now apply Forall_dict_pop.
    + exact Hkeys.
  - (* Save *)
    unfold save_to_csv. split; cbn [fst snd]; [exact Hkeys |].
    cbn. apply Forall_forall. intros row Hin t Ht.
    apply in_map_iff in Hin as ([k s] & <- & Hin).
    unfold key_is_symbol in Hkeys. rewrite Forall_forall in Hkeys.
    destruct (Hkeys _ Hin) as [Hk Hu]. cbn in Ht, Hk, Hu.
    injection Ht as <-. rewrite Hk. exact Hu.
Qed.

(** C9, as the code has it. From every state in which each key is the
    upper-case symbol of its holding, every sequence of load, add, remove
    and save leads to such a state again, provided each ticker handed to
    [add_stock] is already upper case and so is each [Ticker] field of the
    file that is loaded (the command loop upper-cases what it reads;
    [Portfolio] itself stores the ticker as it is given). *)
Theorem key_is_symbol_preserved (cs : list command) stocks rt :
  Forall upper_case_command cs ->
  upper_case_file (portfolio_csv rt) ->
  key_is_symbol stocks ->
  key_is_symbol (fst (run history str_exn cs (stocks, rt))).
Proof.
  intros Hcs Hfile Hkeys.
  assert (well_keyed (run history str_exn cs (stocks, rt))) as [H _]; [| exact H].
  assert (well_keyed (stocks, rt)) as Hstate by now split.
  clear Hfile Hkeys. revert Hstate. generalize (stocks, rt).
  induction Hcs as [| c rest Hc _ IH]; intros state Hstate; [exact Hstate |].
  cbn [run fold_left]. apply IH. now apply step_well_keyed.
Qed.

Lemma load_rows_ledger_ok (fieldnames : list str) (rows : list (list str)) acc :
  ledger_ok acc -> ledger_ok (fst (load_rows fieldnames rows acc)).
Proof.
  revert acc. induction rows as [| row rest IH]; intros acc Hacc; [exact Hacc |].
  cbn [load_rows]. destruct row as [| field fields]; [now apply IH |].
  unfold load_row.
  destruct (row_get "Ticker" fieldnames (field :: fields)) as [ticker | e];
    [| exact Hacc].
  destruct (row_get "Quantity" fieldnames (field :: fields)) as [raw | e];
    [| exact Hacc].
  destruct (py_int raw) as [qty | e]; [| exact Hacc].
  destruct ticker as [t |]; [| exact Hacc].
  apply IH. destruct Hacc as [Hnd Hq]. split.
  - now apply dict_set_NoDup.
  - apply Forall_dict_set; [exact Hq | discriminate].
Qed.

Lemma step_ledger_ok (c : command) (state : Portfolio * Runtime Provider) :
  ledger_ok (fst state) -> ledger_ok (fst (step history str_exn c state)).
Proof.
  destruct state as [stocks rt]. intros Hok. cbn [fst snd] in *.
  destruct c as [| ticker qty | ticker |]; cbn [step fst snd].
  - unfold Portfolio_init.
    destruct (portfolio_csv rt) as [[| fieldnames rows] |];
      try (split; constructor).
    pose proof (load_rows_ledger_ok fieldnames rows []
                  (conj (NoDup_nil _) (Forall_nil _))) as H.
    now destruct (load_rows fieldnames rows []) as [loaded [e |]].
  - destruct (add_stock_shape ticker qty stocks rt)
      as (stocks' & rt' & -> & _ & Hshape).
    cbn [fst]. destruct Hshape as [-> | (holding & -> & _ & Hq)]; [exact Hok |].
    destruct Hok as [Hnd Hall]. split.
    + now apply dict_set_NoDup.
    + apply Forall_dict_set; [exact Hall |]. cbn. rewrite Hq. discriminate.
  - unfold remove_stock. destruct (dict_contains ticker stocks); [| exact Hok].
    destruct Hok as [Hnd Hall]. split.
    + now apply dict_pop_NoDup.
    + now apply Forall_dict_pop.
  - exact Hok.
Qed.

Lemma run_ledger_ok (cs : list command) (state : Portfolio * Runtime Provider) :
  ledger_ok (fst state) -> ledger_ok (fst (run history str_exn cs state)).
Proof.
  revert state. induction cs as [| c rest IH]; intros state Hok; [exact Hok |].
  cbn [run fold_left]. apply IH. now apply step_ledger_ok.
Qed.

End InvariantFacts.

Lemma key_is_symbol_preserved_witness :
  key_is_symbol
    (fst (demo_run
            [Add (read_ticker " aapl ") 3%Z; Save; Remove "AAA"; Load; Add "AAA" 1%Z]
            (scenario, demo_runtime))).
Proof.
  apply (key_is_symbol_preserved demo_history demo_str_exn).
  - repeat constructor.
  - exact I.
  - repeat constructor.
Defined.

(** A lower-case ticker given to [add_stock]: the key stays lower case, the
    symbol of the holding is upper case. *)
Lemma add_lower_case_breaks_key_is_symbol :
  key_is_symbol []
  /\ ~ key_is_symbol (fst (demo_run [Add "aapl" 3%Z] ([], demo_runtime))).
Proof.
  split; [constructor |].
  intros H. inversion H as [| kv rest [Hkey _] _]; subst.
  vm_compute in Hkey. discriminate.
Qed.

(** The same through a hand-edited file. *)
Example load_lower_case_breaks_key_is_symbol :
  keys (fst (demo_run [Load]
               ([], mkRuntime tt [] (Some [["Ticker"; "Quantity"]; ["aapl"; "3"]]))))
  = ["aapl"]
  /\ map symbol (values (fst (demo_run [Load]
               ([], mkRuntime tt [] (Some [["Ticker"; "Quantity"]; ["aapl"; "3"]])))))
     = ["AAPL"].
Proof. split; reflexivity. Qed.

(* ===================================================================== *)
(** * class Stock: the cache and the queries *)
(* ===================================================================== *)

Section CacheFacts.

Context {Provider : Type}.
Variable history : str -> str -> str -> Provider -> res DataFrame * Provider.
Variable str_exn : exn -> str.

Implicit Types (self : Stock) (rt : Runtime Provider) (table : DataFrame).

Lemma get_price_held self rt price self' rt' :
  get_price history str_exn self rt = (Ok price, self', rt') ->
  price = held_price self'.
Proof.
  unfold held_price. destruct (data self) as [table |] eqn:Hd.
  - rewrite (get_price_cached _ _ _ _ _ Hd). intros [= <- <- <-]. now rewrite Hd.
  - rewrite (get_price_fetch _ _ _ _ Hd).
    destruct (history (symbol self) "1mo" "1d" (provider rt)) as [[table | e] pv];
      intros [= <- <- <-]; cbn; [reflexivity | now rewrite Hd].
Qed.

(** X1. [get_price] always returns, and what it returns is the last close of
    the table the stock holds when the call is over ([None] without a
    table or without rows); the symbol, the quantity and the saved file
    stay as they were. *)
Theorem get_price_is_last_close_held self rt :
  exists price self' rt',
    get_price history str_exn self rt = (Ok price, self', rt')
    /\ price = held_price self'
    /\ same_holding self rt self' rt'.
Proof.
  destruct (get_price_returns history str_exn self rt)
    as (price & self' & rt' & Hp & Hsame & _).
  exists price, self', rt'. repeat split; try apply Hsame; auto.
  exact (get_price_held _ _ _ _ _ Hp).
Qed.

Lemma priced_is_cached self rt p self' rt' :
  get_price history str_exn self rt = (Ok (Some p), self', rt') ->
  exists table, data self' = Some table /\ latest_price table = Some p.
Proof.
  intros Hp. pose proof (get_price_held _ _ _ _ _ Hp) as H.
  unfold held_price in H. destruct (data self') as [table |]; [| discriminate].
  now exists table.
Qed.

(** X2. Once [get_price] has returned a price, asking again costs nothing:
    the same price comes back, the daily change is answered too, and
    neither call touches the stock, the provider or the output. *)
Theorem get_price_again_is_free self rt p self' rt' :
  get_price history str_exn self rt = (Ok (Some p), self', rt') ->
  get_price history str_exn self' rt' = (Ok (Some p), self', rt')
  /\ exists change,
      get_daily_change_percent history str_exn self' rt' = (Ok change, self', rt').
Proof.
  intros Hp. destruct (priced_is_cached _ _ _ _ _ Hp) as (table & Hd & Hl).
  split.
  - now rewrite (get_price_cached _ _ _ _ _ Hd), Hl.
  - exists (daily_change table).
    apply (get_daily_change_percent_cached _ _ _ _ _ Hd).
Qed.

(** X3. An answer without rows is kept like any other: a stock that was told
    "no rows" once returns [None] ever after and never asks the provider
    again, whatever the provider would answer by then. *)
Theorem empty_answer_is_never_asked_again self rt pv :
  data self = None ->
  history (symbol self) "1mo" "1d" (provider rt) = (Ok [], pv) ->
  exists self',
    get_price history str_exn self rt = (Ok None, self', set_provider pv rt)
    /\ forall rt2, get_price history str_exn self' rt2 = (Ok None, self', rt2).
Proof.
  intros Hd Hh. exists (set_data (Some []) self). split.
  - now rewrite (get_price_fetch _ _ _ _ Hd), Hh.
  - intros rt2. now rewrite (get_price_cached _ _ (set_data (Some []) self) rt2 [] eq_refl).
Qed.

(** X4. A request that raises is not kept: [get_price] prints the error and
    returns [None], the stock still has no table, and the next call asks
    the provider again and takes what it then answers. *)
Theorem failed_request_is_asked_again self rt e pv :
  data self = None ->
  history (symbol self) "1mo" "1d" (provider rt) = (Raise e, pv) ->
  let rt1 :=
    print ("Error fetching data for " ++ symbol self ++ ": " ++ str_exn e)
          (set_provider pv rt) in
  get_price history str_exn self rt = (Ok None, self, rt1)
  /\ forall table pv',
      history (symbol self) "1mo" "1d" pv = (Ok table, pv') ->
      get_price history str_exn self rt1
      = (Ok (latest_price table), set_data (Some table) self, set_provider pv' rt1).
Proof.
  intros Hd Hh rt1. split.
  - now rewrite (get_price_fetch _ _ _ _ Hd), Hh.
  - intros table pv' Hh2. rewrite (get_price_fetch _ _ _ _ Hd).
    subst rt1. cbn [provider print set_provider]. now rewrite Hh2.
Qed.

(** X5. A stock that was only constructed has no quantity, so its value is
    never a number: [get_value] raises [TypeError], with or without a
    price. *)
Theorem fresh_stock_has_no_value (ticker : str) rt :
  exists self' rt',
    get_value history str_exn (Stock_init ticker) rt = (Raise TypeError, self', rt').
Proof.
  destruct (get_price_returns history str_exn (Stock_init ticker) rt)
    as (price & self' & rt' & Hp & (_ & Hq & _) & _).
  exists self', rt'. rewrite (get_value_unfold _ _ _ _ _ _ _ Hp), Hq.
  now destruct price.
Qed.

(** X6. [get_daily_change_percent] always returns, and it returns [None]
    exactly when the stock ends up without a table or with a table of
    fewer than two bars. *)
Theorem daily_change_absent_iff_short self rt :
  exists change self' rt',
    get_daily_change_percent history str_exn self rt = (Ok change, self', rt')
    /\ (change = None <->
        match data self' with
        | Some table => (List.length table < 2)%nat
        | None => True
        end)
    /\ same_holding self rt self' rt'.
Proof.
  assert (forall table, daily_change table = None <-> (List.length table < 2)%nat) as Hiff.
  { intros table. unfold daily_change.
    destruct (Nat.ltb_spec (List.length table) 2); split; auto; try discriminate; lia. }
  destruct (data self) as [table |] eqn:Hd.
  - exists (daily_change table), self, rt.
    rewrite (get_daily_change_percent_cached _ _ _ _ _ Hd), Hd.
    repeat split; auto; apply Hiff.
  - rewrite (get_daily_change_percent_fetch _ _ _ _ Hd).
    destruct (history (symbol self) "1mo" "1d" (provider rt)) as [[table | e] pv];
      do 3 eexists; (split; [reflexivity |]); cbn [data set_data]; rewrite ?Hd;
      repeat split; auto; apply Hiff.
Qed.

End CacheFacts.

Lemma get_price_again_is_free_witness :
  get_price demo_history demo_str_exn
    (mkStock None "AAA" (Some (bars [9; 10]%float))) demo_runtime
  = (Ok (Some 10%float), mkStock None "AAA" (Some (bars [9; 10]%float)), demo_runtime)
  /\ exists change,
      get_daily_change_percent demo_history demo_str_exn
        (mkStock None "AAA" (Some (bars [9; 10]%float))) demo_runtime
      = (Ok change, mkStock None "AAA" (Some (bars [9; 10]%float)), demo_runtime).
Proof.
  apply (get_price_again_is_free demo_history demo_str_exn
           (Stock_init "aaa") demo_runtime).
  reflexivity.
Defined.

Lemma empty_answer_is_never_asked_again_witness :
  exists self',
    get_price demo_history demo_str_exn (Stock_init "bbb") demo_runtime
    = (Ok None, self', set_provider tt demo_runtime)
    /\ forall rt2, get_price demo_history demo_str_exn self' rt2 = (Ok None, self', rt2).
Proof.
  apply (empty_answer_is_never_asked_again demo_history demo_str_exn
           (Stock_init "bbb") demo_runtime tt); reflexivity.
Defined.

Lemma failed_request_is_asked_again_witness :
  let rt := mkRuntime false [] None in
  let rt1 := print "Error fetching data for AAA: timed out" (set_provider true rt) in
  get_price flaky_history demo_str_exn (Stock_init "aaa") rt
  = (Ok None, Stock_init "aaa", rt1)
  /\ forall table pv',
      flaky_history "AAA" "1mo" "1d" true = (Ok table, pv') ->
      get_price flaky_history demo_str_exn (Stock_init "aaa") rt1
      = (Ok (latest_price table), set_data (Some table) (Stock_init "aaa"),
         set_provider pv' rt1).
Proof.
  apply (failed_request_is_asked_again flaky_history demo_str_exn
           (Stock_init "aaa") (mkRuntime false [] None)
           (ProviderError "timed out") true); reflexivity.
Defined.

(* ===================================================================== *)
(** * The history chart *)
(* ===================================================================== *)

Lemma In_combine_nth_error {A B} (l : list A) (l' : list B) (a : A) (b : B) :
  In (a, b) (combine l l') <->
  exists i, nth_error l i = Some a /\ nth_error l' i = Some b.
Proof.
  revert l'. induction l as [| x l IH]; intros l'.
  - cbn. split; [tauto | intros ([| i] & H & _); discriminate].
  - destruct l' as [| y l'].
    + cbn. split; [tauto | intros ([| i] & _ & H); discriminate].
    + cbn [combine In]. rewrite IH. split.
      * intros [[= <- <-] | (i & Ha & Hb)]; [now exists 0%nat | now exists (S i)].
      * intros ([| i] & Ha & Hb); cbn in Ha, Hb.
        -- left. congruence.
        -- right. now exists i.
Qed.

Lemma In_select_rows (data : DataFrame) (mask : list bool) (row : Bar) :
  In row (select_rows data mask) <->
  exists i, nth_error data i = Some row /\ nth_error mask i = Some true.
Proof.
  unfold select_rows. rewrite in_map_iff, <- In_combine_nth_error. split.
  - intros ([r b] & <- & Hin). apply filter_In in Hin as [Hin Hb].
    cbn in Hb |- *. now subst b.
  - intros Hin. exists (row, true). split; [reflexivity |].
    apply filter_In. now split.
Qed.

Lemma select_rows_length (k : nat) (data : DataFrame) (mask : list bool) :
  (forall i, (i < k)%nat -> nth i mask false = false) ->
  (List.length (select_rows data mask) <= List.length data - k)%nat.
Proof.
  unfold select_rows. rewrite length_map.
  revert data mask. induction k as [| k IH]; intros data mask Hk.
  - rewrite Nat.sub_0_r.
    etransitivity; [apply filter_length_le |].
    rewrite length_combine. apply Nat.le_min_l.
  - destruct data as [| d data]; [cbn; lia |].
    destruct mask as [| b mask]; [cbn; lia |].
    assert (b = false) as -> by (apply (Hk 0%nat); lia).
    cbn [combine filter snd List.length]. rewrite Nat.sub_succ.
    apply IH. intros i Hi. apply (Hk (S i)). lia.
Qed.

Lemma buy_signal_below_four (data : DataFrame) (i : nat) :
  (i < 4)%nat -> nth i (buy_signals data) false = false.
Proof.
  intros Hi. rewrite buy_signals_nth. apply ltb_isna_l. rewrite sma_5_nth.
  destruct (Nat.ltb_spec i 4) as [_ | Hge]; [| lia].
  now rewrite andb_false_r.
Qed.

(** X7. The rows [plot_history] marks as buy signals are exactly the rows whose
    close is above the moving average at their position; none of them is
    among the first four rows, so a table of [n] rows has at most [n - 4]
    marks. *)
Theorem plot_signals_are_the_rows_above_average (data : DataFrame) :
  (forall row,
      In row (select_rows data (buy_signals data)) <->
      exists i,
        nth_error data i = Some row
        /\ (nth i (sma_5 data) nan <? Close row)%float = true)
  /\ (forall row i,
         nth_error data i = Some row ->
         (nth i (sma_5 data) nan <? Close row)%float = true ->
         (4 <= i)%nat)
  /\ (List.length (select_rows data (buy_signals data)) <= List.length data - 4)%nat.
Proof.
  assert (forall i row, nth_error data i = Some row ->
            nth i (buy_signals data) false
            = (nth i (sma_5 data) nan <? Close row)%float) as Hnth.
  { intros i row Hrow. rewrite buy_signals_nth. f_equal.
    apply nth_error_nth. unfold Close_column. now rewrite nth_error_map, Hrow. }
  assert (List.length (buy_signals data) = List.length data) as Hlen.
  { unfold buy_signals, series_gt, sma_5, Close_column.
    rewrite length_map, length_combine, rolling_mean_length, length_map.
    apply Nat.min_id. }
  repeat split.
  - intros Hin. apply In_select_rows in Hin as (i & Hrow & Hmask).
    exists i. split; [exact Hrow |].
    rewrite <- (Hnth i row Hrow). now apply nth_error_nth.
  - intros (i & Hrow & Habove). apply In_select_rows. exists i.
    split; [exact Hrow |].
    rewrite <- (Hnth i row Hrow) in Habove. rewrite <- Habove.
    apply nth_error_nth'. rewrite Hlen. apply nth_error_Some. congruence.
  - intros row i Hrow Habove.
    destruct (Nat.le_gt_cases 4 i) as [Hge | Hlt]; [exact Hge |].
    rewrite <- (Hnth i row Hrow), buy_signal_below_four in Habove by exact Hlt.
    discriminate.
  - apply select_rows_length. intros i Hi. now apply buy_signal_below_four.
Qed.

Lemma dict_get_dict_set {V} (k k' : str) (v : V) (d : dict V) :
  dict_get k' (dict_set k v d) = if String.eqb k k' then Some v else dict_get k' d.
Proof.
  induction d as [| [key val] r IH]; cbn.
  - reflexivity.
  - destruct (String.eqb_spec key k) as [-> | Hne]; cbn.
    + now destruct (String.eqb k k').
    + rewrite IH. destruct (String.eqb_spec key k') as [-> | _]; [| reflexivity].
      destruct (String.eqb_spec k k') as [-> | _]; [now destruct Hne | reflexivity].
Qed.

Section HistoryChartFacts.

Context {Provider : Type}.
Variable history : str -> str -> str -> Provider -> res DataFrame * Provider.
Variable str_exn : exn -> str.
Variable str_frame : DataFrame -> str.

Implicit Types (self : Stock) (m : Machine Provider).


End HistoryChartFacts.

(* ===================================================================== *)
(** * class Portfolio: loading, and undoing an addition *)
(* ===================================================================== *)

Lemma load_rows_app (fieldnames : list str) (rows rows' : list (list str))
  (acc : Portfolio) :
  load_rows fieldnames (rows ++ rows')%list acc =
  match load_rows fieldnames rows acc with
  | (stocks, None) => load_rows fieldnames rows' stocks
  | (stocks, Some e) => (stocks, Some e)
  end.
Proof.
  revert acc. induction rows as [| row rows IH]; intros acc; [reflexivity |].
  cbn [app load_rows]. destruct row as [| field fields]; [apply IH |].
  destruct (load_row fieldnames (field :: fields) acc); [apply IH | reflexivity].
Qed.

Lemma load_rows_fresh (fieldnames : list str) (rows : list (list str))
  (acc : Portfolio) :
  Forall fresh_entry acc -> Forall fresh_entry (fst (load_rows fieldnames rows acc)).
Proof.
  revert acc. induction rows as [| row rest IH]; intros acc Hacc; [exact Hacc |].
  cbn [load_rows]. destruct row as [| field fields]; [now apply IH |].
  unfold load_row.
  destruct (row_get "Ticker" fieldnames (field :: fields)) as [ticker | e];
    [| exact Hacc].
  destruct (row_get "Quantity" fieldnames (field :: fields)) as [raw | e];
    [| exact Hacc].
  destruct (py_int raw) as [qty | e]; [| exact Hacc].
  destruct ticker as [t |]; [| exact Hacc].
  apply IH. apply Forall_dict_set; [exact Hacc |].
  repeat split. discriminate.
Qed.

Lemma dict_pop_app_fresh {V} (k : str) (v : V) (d : dict V) :
  dict_contains k d = false -> dict_pop k (d ++ [(k, v)])%list = d.
Proof.
  unfold dict_contains. induction d as [| [k' v'] r IH]; cbn.
  - now rewrite String.eqb_refl.
  - destruct (String.eqb k' k); [discriminate |].
    intros H. now rewrite IH.
Qed.

Lemma dict_contains_app_last {V} (k : str) (v : V) (d : dict V) :
  dict_contains k (d ++ [(k, v)])%list = true.
Proof.
  apply dict_contains_true. unfold keys. rewrite map_app.
  apply in_or_app. right. now left.
Qed.

Section LoadingFacts.

Context {Provider : Type}.
Variable history : str -> str -> str -> Provider -> res DataFrame * Provider.
Variable str_exn : exn -> str.

Implicit Types (stocks : Portfolio) (rt : Runtime Provider) (ticker : str).

(** X9. Whatever the saved file holds, [Portfolio()] gives a dictionary of
    fresh holdings: no key twice, each symbol the upper-cased key, each
    quantity set, no table cached. It asks the provider nothing and leaves
    the file as it is; without a file the ledger is empty and nothing is
    printed. *)
Theorem loading_gives_fresh_holdings rt :
  NoDup (keys (fst (Portfolio_init str_exn rt)))
  /\ Forall fresh_entry (fst (Portfolio_init str_exn rt))
  /\ provider (snd (Portfolio_init str_exn rt)) = provider rt
  /\ portfolio_csv (snd (Portfolio_init str_exn rt)) = portfolio_csv rt
  /\ (portfolio_csv rt = None -> Portfolio_init str_exn rt = ([], rt)).
Proof.
  unfold Portfolio_init.
  destruct (portfolio_csv rt) as [[| fieldnames rows] |] eqn:Ef; cbn.
  - repeat split; auto; try constructor. discriminate.
  - pose proof (load_rows_ledger_ok fieldnames rows []
                  (conj (NoDup_nil _) (Forall_nil _))) as [Hnd _].
    pose proof (load_rows_fresh fieldnames rows [] (Forall_nil _)) as Hfresh.
    destruct (load_rows fieldnames rows []) as [loaded [e |]];
      cbn in *; repeat split; auto; discriminate.
  - repeat split; auto; constructor.
Qed.

(** X10. Loading stops at the first record it cannot read: the holdings of the
    records before it are kept, the failure is printed, and nothing of the
    records after it is loaded, however good they are. *)
Theorem load_stops_at_first_bad_record
  (fieldnames : list str) (good : list (list str)) (bad : list str)
  (rest : list (list str)) stocks (e : exn) rt :
  portfolio_csv rt = Some (fieldnames :: good ++ bad :: rest)%list ->
  load_rows fieldnames good [] = (stocks, None) ->
  bad <> [] ->
  load_row fieldnames bad stocks = Raise e ->
  Portfolio_init str_exn rt
  = (stocks, print ("Error loading portfolio: " ++ str_exn e) rt).
Proof.
  intros Hfile Hgood Hbad Hrow. unfold Portfolio_init. rewrite Hfile.
  rewrite load_rows_app, Hgood. cbn [load_rows].
  destruct bad as [| field fields]; [now destruct Hbad |].
  now rewrite Hrow.
Qed.

(** X11. Adding a ticker that is not held and then removing it gives back the
    ledger as it was, whether or not the validation let the ticker in. *)
Theorem add_then_remove_restores ticker (qty : Z) stocks rt :
  dict_contains ticker stocks = false ->
  let added := add_stock history str_exn ticker qty stocks rt in
  self_after (remove_stock ticker (self_after added) (rest_after added)) = stocks.
Proof.
  intros Hout added. subst added.
  destruct (add_stock_shape history str_exn ticker qty stocks rt)
    as (s1 & t1 & -> & _ & Hshape).
  unfold self_after, rest_after, remove_stock. cbn [fst snd].
  destruct Hshape as [-> | (holding & -> & _)].
  - now rewrite Hout.
  - rewrite dict_set_fresh by exact Hout.
    now rewrite dict_contains_app_last, dict_pop_app_fresh by exact Hout.
Qed.

(** X12. Removing the same ticker a second time finds nothing: the ledger stays
    as the first removal left it and [UnknownSymbol] is reported. *)
Theorem remove_twice_reports_unknown ticker stocks rt :
  NoDup (keys stocks) ->
  let removed := remove_stock ticker stocks rt in
  remove_stock ticker (self_after removed) (rest_after removed)
  = (Ok tt, self_after removed, print (UnknownSymbol ticker) (rest_after removed)).
Proof.
  intros Hnd removed. subst removed.
  unfold self_after, rest_after, remove_stock.
  destruct (dict_contains ticker stocks) eqn:Hin; cbn [fst snd].
  - destruct (dict_pop_present ticker stocks Hnd Hin)
      as (before & stock & after & _ & -> & Hout).
    apply dict_contains_false in Hout. now rewrite Hout.
  - now rewrite Hin.
Qed.

End LoadingFacts.

Lemma load_stops_at_first_bad_record_witness :
  Portfolio_init demo_str_exn
    (mkRuntime tt []
       (Some [["Ticker"; "Quantity"]; ["AAA"; " 2 "]; []; ["BBB"; "one"]; ["CCC"; "3"]]))
  = ([("AAA", mkStock (Some 2%Z) "AAA" None)],
     print "Error loading portfolio: ValueError"
       (mkRuntime tt []
          (Some [["Ticker"; "Quantity"]; ["AAA"; " 2 "]; []; ["BBB"; "one"];
                 ["CCC"; "3"]]))).
Proof.
  apply (load_stops_at_first_bad_record demo_str_exn
           ["Ticker"; "Quantity"] [["AAA"; " 2 "]; []] ["BBB"; "one"] [["CCC"; "3"]]
           [("AAA", mkStock (Some 2%Z) "AAA" None)] ValueError).
  - reflexivity.
  - reflexivity.
  - discriminate.
  - reflexivity.
Defined.

Lemma add_then_remove_restores_witness :
  self_after
    (remove_stock "AAPL"
       (self_after (demo_add "AAPL" 5%Z scenario demo_runtime))
       (rest_after (demo_add "AAPL" 5%Z scenario demo_runtime)))
  = scenario.
Proof.
  apply (add_then_remove_restores demo_history demo_str_exn "AAPL" 5%Z
           scenario demo_runtime).
  reflexivity.
Defined.

Lemma remove_twice_reports_unknown_witness :
  remove_stock "AAA"
    (self_after (remove_stock "AAA" scenario demo_runtime))
    (rest_after (remove_stock "AAA" scenario demo_runtime))
  = (Ok tt, self_after (remove_stock "AAA" scenario demo_runtime),
     print (UnknownSymbol "AAA") (rest_after (remove_stock "AAA" scenario demo_runtime))).
Proof.
  apply (remove_twice_reports_unknown "AAA" scenario demo_runtime).
  repeat constructor; cbn; intuition discriminate.
Defined.

(* ===================================================================== *)
(** * Loops over the ledger: what they leave alone *)
(* ===================================================================== *)

Lemma same_entries_refl (stocks : Portfolio) : Forall2 same_entry stocks stocks.
Proof. induction stocks; constructor; auto. now repeat split. Qed.

Lemma same_entries_keys (stocks stocks' : Portfolio) :
  Forall2 same_entry stocks stocks' -> keys stocks' = keys stocks.
Proof.
  unfold keys. induction 1 as [| kv kv' r r' (Hk & _) _ IH]; cbn; [reflexivity |].
  now rewrite Hk, IH.
Qed.

Lemma same_entries_saved_records (stocks stocks' : Portfolio) :
  Forall2 same_entry stocks stocks' -> saved_records stocks' = saved_records stocks.
Proof.
  unfold saved_records.
  induction 1 as [| kv kv' r r' (Hk & _ & Hq) _ IH]; cbn; [reflexivity |].
  unfold csv_record at 1 3. now rewrite Hk, Hq, IH.
Qed.

Lemma same_entries_holdings (stocks stocks' : Portfolio) :
  Forall2 same_entry stocks stocks' -> holdings stocks' = holdings stocks.
Proof.
  unfold holdings.
  induction 1 as [| kv kv' r r' (Hk & _ & Hq) _ IH]; cbn; [reflexivity |].
  now rewrite Hk, Hq, IH.
Qed.

Lemma same_entries_key_is_symbol (stocks stocks' : Portfolio) :
  Forall2 same_entry stocks stocks' -> key_is_symbol stocks -> key_is_symbol stocks'.
Proof.
  unfold key_is_symbol.
  induction 1 as [| kv kv' r r' (Hk & Hs & _) _ IH]; intros Hkeys; [constructor |].
  inversion Hkeys as [| ? ? Hkv Hr]; subst. constructor; [| now apply IH].
  now rewrite Hk, Hs.
Qed.

Lemma same_entries_ledger_ok (stocks stocks' : Portfolio) :
  Forall2 same_entry stocks stocks' -> ledger_ok stocks -> ledger_ok stocks'.
Proof.
  intros Hsame [Hnd Hq]. split.
  - now rewrite (same_entries_keys _ _ Hsame).
  - clear Hnd. induction Hsame as [| kv kv' r r' (_ & _ & Hq') _ IH]; [constructor |].
    inversion Hq as [| ? ? Hkv Hr]; subst. constructor; [| now apply IH].
    now rewrite Hq'.
Qed.

Section LoopFacts.

Context {Provider : Type}.
Variable history : str -> str -> str -> Provider -> res DataFrame * Provider.
Variables format_2f format_plus_2f str_float : float -> str.
Variable str_exn : exn -> str.

Implicit Types (self : Stock) (stocks : Portfolio) (rt : Runtime Provider).

(** A loop whose body leaves every holding alone leaves the ledger alone,
    also when it stops at an exception. *)
Lemma for_items_frame {A} (body : str -> method Provider Stock A) stocks rt :
  (forall key self rt0,
      same_holding self rt0 (self_after (body key self rt0))
        (rest_after (body key self rt0))) ->
  Forall2 same_entry stocks (self_after (for_items body stocks rt))
  /\ portfolio_csv (rest_after (for_items body stocks rt)) = portfolio_csv rt.
Proof.
  intros Hbody. revert rt.
  induction stocks as [| [key stock] rest IH]; intros rt.
  - cbn. split; [constructor | reflexivity].
  - cbn [for_items]. specialize (Hbody key stock rt).
    destruct (body key stock rt) as [[r stock'] rt1].
    destruct Hbody as (Hs & Hq & Hf). cbn [self_after rest_after fst snd] in *.
    destruct r as [a | e].
    + specialize (IH rt1).
      destruct (for_items body rest rt1) as [[r2 rest'] rt2].
      destruct IH as [Hsame Hf2]. cbn [self_after rest_after fst snd] in *.
      destruct r2; cbn [self_after rest_after fst snd];
        (split; [constructor; [now repeat split | exact Hsame] | congruence]).
    + cbn [self_after rest_after fst snd]. split; [| exact Hf].
      constructor; [now repeat split | apply same_entries_refl].
Qed.

Lemma get_value_frame self rt :
  same_holding self rt (self_after (get_value history str_exn self rt))
    (rest_after (get_value history str_exn self rt)).
Proof.
  destruct (get_price_returns history str_exn self rt)
    as (price & self' & rt' & Hp & Hsame & _).
  now rewrite (get_value_unfold _ _ _ _ _ _ _ Hp).
Qed.

Lemma table_row_frame (ticker : str) self rt :
  same_holding self rt
    (self_after (table_row history format_2f format_plus_2f str_float str_exn
                   ticker self rt))
    (rest_after (table_row history format_2f format_plus_2f str_float str_exn
                   ticker self rt)).
Proof.
  destruct (get_price_returns history str_exn self rt)
    as (price & self1 & rt1 & Hp & (Hs1 & Hq1 & Hf1) & _).
  destruct (get_daily_change_percent_returns history str_exn self1 rt1)
    as (change & self2 & rt2 & Hc & (Hs2 & Hq2 & Hf2) & _).
  rewrite (table_row_unfold _ _ _ _ _ _ _ _ _ _ _ _ _ _ Hp Hc).
  repeat split; cbn; congruence.
Qed.

Lemma quote_frame (ticker : str) self rt :
  same_holding self rt (self_after (quote history str_exn ticker self rt))
    (rest_after (quote history str_exn ticker self rt)).
Proof.
  unfold quote.
  destruct (get_price_returns history str_exn self rt)
    as (price & self' & rt' & -> & Hsame & _).
  exact Hsame.
Qed.

(** X13. Whether it returns or raises, [get_total_value] changes no key, symbol
    or quantity of the ledger and does not touch the saved file: all it
    can leave behind are cached tables. *)
Theorem total_value_leaves_the_ledger stocks rt :
  Forall2 same_entry stocks (self_after (get_total_value history str_exn stocks rt))
  /\ portfolio_csv (rest_after (get_total_value history str_exn stocks rt))
     = portfolio_csv rt.
Proof.
  pose proof (for_items_frame (fun _ => get_value history str_exn) stocks rt
                (fun _ => get_value_frame)) as H.
  unfold get_total_value.
  destruct (for_items (fun _ => get_value history str_exn) stocks rt)
    as [[[vals | e] stocks'] rt']; exact H.
Qed.

(** X14. When every holding has its value (a cached table with a last close,
    and a quantity that fits binary64), [get_total_value] returns the sum
    of the values, added from the left starting at 0, and changes nothing:
    no request, no output. *)
Theorem total_value_is_the_sum_of_values stocks (vals : list float) rt :
  Forall2 (fun kv v => holding_value (snd kv) = Some v) stocks vals ->
  get_total_value history str_exn stocks rt = (Ok (py_sum vals), stocks, rt).
Proof.
  intros Hvals. unfold get_total_value.
  assert (for_items (fun _ => get_value history str_exn) stocks rt
          = (Ok vals, stocks, rt)) as ->; [| reflexivity].
  induction Hvals as [| [key stock] v rest vals' Hv _ IH]; [reflexivity |].
  cbn [for_items]. cbn [snd] in Hv. unfold holding_value, held_price in Hv.
  destruct (data stock) as [table |] eqn:Hd; [| discriminate].
  destruct (latest_price table) as [p |] eqn:Hp; [| discriminate].
  destruct (quantity stock) as [q |] eqn:Hq; [| discriminate].
  destruct (float_of_int q) as [f |] eqn:Hf; [| discriminate].
  injection Hv as <-.
  pose proof (get_price_cached history str_exn stock rt table Hd) as Hprice.
  rewrite Hp in Hprice.
  assert (get_value history str_exn stock rt = (Ok (p * f)%float, stock, rt)) as ->.
  { rewrite (get_value_unfold _ _ _ _ _ _ _ Hprice), Hq. cbn. now rewrite Hf. }
  now rewrite IH.
Qed.

(** X15. With every table cached and every quantity within binary64,
    [Portfolio.__str__] is a pure view: it returns the text and leaves the
    ledger, the provider and the output exactly as they were. *)
Theorem view_of_cached_ledger_changes_nothing stocks rt :
  Forall (fun kv => data (snd kv) <> None) stocks ->
  quantities_in_float_range stocks ->
  exists text,
    Portfolio_str history format_2f format_plus_2f str_float str_exn stocks rt
    = (Ok text, stocks, rt).
Proof.
  intros Hcached Hrange. unfold Portfolio_str.
  assert (exists lines,
             for_items (table_row history format_2f format_plus_2f str_float str_exn)
               stocks rt = (Ok lines, stocks, rt)) as [lines ->];
    [| now eexists].
  induction Hcached as [| [key stock] rest Hd _ IH].
  - now exists [].
  - inversion Hrange as [| ? ? Hq Hrest]; subst. cbn [snd] in Hd, Hq.
    destruct (data stock) as [table |] eqn:Ed; [| now destruct Hd].
    pose proof (get_price_cached history str_exn stock rt table Ed) as Hp.
    pose proof (get_daily_change_percent_cached history str_exn stock rt table Ed) as Hc.
    destruct (IH Hrest) as [lines Hloop].
    cbn [for_items].
    rewrite (table_row_unfold _ _ _ _ _ _ _ _ _ _ _ _ _ _ Hp Hc), Hloop.
    unfold row_text.
    destruct (latest_price table) as [p |]; [| now eexists].
    destruct (quantity stock) as [q |] eqn:Eq; [| now eexists].
    specialize (Hq q eq_refl). unfold in_float_range in Hq.
    destruct (float_of_int q); [now eexists | discriminate].
Qed.

End LoopFacts.

Lemma total_value_is_the_sum_of_values_witness :
  demo_total [("AAA", mkStock (Some 2%Z) "AAA" (Some (bars [9; 10]%float)));
              ("ZERO", mkStock (Some 3%Z) "ZERO" (Some (bars [0; 5]%float)))]
    demo_runtime
  = (Ok 35%float,
     [("AAA", mkStock (Some 2%Z) "AAA" (Some (bars [9; 10]%float)));
      ("ZERO", mkStock (Some 3%Z) "ZERO" (Some (bars [0; 5]%float)))],
     demo_runtime).
Proof.
  apply (total_value_is_the_sum_of_values demo_history demo_str_exn _
           [20; 15]%float demo_runtime).
  repeat constructor.
Defined.

Lemma view_of_cached_ledger_changes_nothing_witness :
  exists text, demo_table scenario demo_runtime = (Ok text, scenario, demo_runtime).
Proof.
  apply (view_of_cached_ledger_changes_nothing demo_history demo_format demo_format
           demo_format demo_str_exn scenario demo_runtime).
  - repeat constructor; discriminate.
  - repeat constructor; cbn; intros q Hq; inversion Hq; reflexivity.
Defined.


(* ===================================================================== *)
(** * Saving again, and the watchlist chart *)
(* ===================================================================== *)

Lemma saved_records_reloaded (stocks : Portfolio) :
  saved_records (map reloaded stocks) = saved_records stocks.
Proof. unfold saved_records. rewrite map_map. reflexivity. Qed.

Lemma insert_by_price_perm (x : str * float) (l : list (str * float)) :
  Permutation (insert_by_price x l) (x :: l).
Proof.
  induction l as [| y r IH]; cbn; [reflexivity |].
  destruct (snd x <? snd y)%float; [| reflexivity].
  rewrite IH. apply perm_swap.
Qed.

Lemma demo_sorted_perm (l : list (str * float)) : Permutation (demo_sorted l) l.
Proof.
  induction l as [| x r IH]; cbn; [reflexivity |].
  rewrite insert_by_price_perm. now constructor.
Qed.

Lemma In_firstn_In {A} (n : nat) (l : list A) (x : A) : In x (firstn n l) -> In x l.
Proof.
  intros H. rewrite <- (firstn_skipn n l). apply in_or_app. now left.
Qed.

Lemma In_valid_quotes (quotes : list (str * option float)) (ticker : str) (p : float) :
  In (ticker, p) (valid_quotes quotes) <-> In (ticker, Some p) quotes.
Proof.
  induction quotes as [| [t [q |]] r IH]; cbn; [tauto | |].
  - rewrite IH. split; (intros [[= <- <-] | H]; [now left | now right]).
  - rewrite IH. split; [now right | intros [[=] | H]; exact H].
Qed.

Lemma In_priced_holdings (stocks : Portfolio) (ticker : str) (p : float) :
  In (ticker, p) (priced_holdings stocks) <->
  exists stock, In (ticker, stock) stocks /\ held_price stock = Some p.
Proof.
  unfold priced_holdings. rewrite In_valid_quotes, in_map_iff. split.
  - intros ([t stock] & [= <- Hp] & Hin). now exists stock.
  - intros (stock & Hin & Hp). exists (ticker, stock). cbn. now rewrite Hp.
Qed.

Section ChartFacts.

Context {Provider : Type}.
Variable history : str -> str -> str -> Provider -> res DataFrame * Provider.
Variable str_exn : exn -> str.
Variable sorted_by_price : list (str * float) -> list (str * float).

Implicit Types (stocks : Portfolio) (rt : Runtime Provider) (m : Machine Provider).


(** The loop of [generate_chart] never raises; the price it collects for a
    holding is the last close of the table the holding holds afterwards. *)
Lemma for_items_quote stocks rt :
  exists stocks' rt',
    for_items (quote history str_exn) stocks rt
    = (Ok (map (fun kv => (fst kv, held_price (snd kv))) stocks'), stocks', rt')
    /\ Forall2 same_entry stocks stocks'
    /\ portfolio_csv rt' = portfolio_csv rt.
Proof.
  revert rt. induction stocks as [| [key stock] rest IH]; intros rt.
  - exists [], rt. cbn. repeat split. constructor.
  - destruct (get_price_returns history str_exn stock rt)
      as (price & stock' & rt1 & Hp & (Hs & Hq & Hf) & _).
    destruct (IH rt1) as (rest' & rt2 & Hloop & Hsame & Hf2).
    exists ((key, stock') :: rest'), rt2.
    cbn [for_items]. unfold quote at 1. rewrite Hp, Hloop.
    rewrite (get_price_held _ _ _ _ _ _ _ Hp).
    repeat split; [| congruence].
    constructor; [now repeat split | exact Hsame].
Qed.

Lemma generate_chart_frame stocks m :
  outcome (generate_chart history str_exn sorted_by_price stocks m) = Ok tt
  /\ Forall2 same_entry stocks
       (self_after (generate_chart history str_exn sorted_by_price stocks m))
  /\ portfolio_csv
       (runtime (rest_after (generate_chart history str_exn sorted_by_price stocks m)))
     = portfolio_csv (runtime m).
Proof.
  destruct stocks as [| kv rest].
  - cbn. repeat split. constructor.
  - unfold generate_chart.
    destruct (for_items_quote (kv :: rest) (runtime m))
      as (stocks' & rt' & -> & Hsame & Hf).
    cbn. repeat split; auto.
Qed.

(** X17. [generate_chart] never raises and changes no key, symbol, quantity or
    saved file. For an empty ledger it only prints that there is nothing to
    chart. Otherwise it replaces [output/chart.png] by the bars of the
    first five of the sorted priced holdings: when the sort returns a
    rearrangement of what it is given, there are at most five bars, each
    bar is a holding of the ledger with the last close of the table it
    holds, a holding without a price has no bar, and when at most five
    holdings are priced each of them has its bar (none at all when no
    holding is priced). *)
Theorem watchlist_chart_shows_priced_holdings stocks m :
  (forall l, Permutation (sorted_by_price l) l) ->
  (stocks = [] ->
   generate_chart history str_exn sorted_by_price stocks m
   = (Ok tt, [],
      with_runtime (print "No stocks in portfolio to generate chart for." (runtime m)) m))
  /\ (stocks <> [] ->
      exists stocks' m' top5,
        generate_chart history str_exn sorted_by_price stocks m = (Ok tt, stocks', m')
        /\ Forall2 same_entry stocks stocks'
        /\ portfolio_csv (runtime m') = portfolio_csv (runtime m)
        /\ dict_get "output/chart.png" (charts m')
           = Some (WatchlistChart (map fst top5) (map snd top5))
        /\ (List.length top5 <= 5)%nat
        /\ (forall ticker price,
               In (ticker, price) top5 ->
               exists stock, In (ticker, stock) stocks' /\ held_price stock = Some price)
        /\ ((List.length (priced_holdings stocks') <= 5)%nat ->
            forall ticker stock price,
              In (ticker, stock) stocks' -> held_price stock = Some price ->
              In (ticker, price) top5)).
Proof.
  intros Hperm. split; [now intros -> |].
  intros Hne. destruct stocks as [| kv rest]; [now destruct Hne |].
  destruct (for_items_quote (kv :: rest) (runtime m))
    as (stocks' & rt' & Hloop & Hsame & Hf).
  exists stocks'. eexists.
  exists (firstn 5 (sorted_by_price (priced_holdings stocks'))).
  unfold generate_chart. rewrite Hloop. fold (priced_holdings stocks').
  split; [reflexivity |]. split; [exact Hsame |]. split; [exact Hf |].
  split; [cbn; rewrite dict_get_dict_set; now rewrite String.eqb_refl |].
  split; [apply firstn_le_length |]. split.
  - intros ticker price Hin. apply In_priced_holdings.
    apply (Permutation_in _ (Hperm _)). eapply In_firstn_In, Hin.
  - intros Hfew ticker stock price Hin Hp.
    rewrite firstn_all2 by now rewrite (Permutation_length (Hperm _)).
    apply (Permutation_in _ (Permutation_sym (Hperm _))).
    apply In_priced_holdings. now exists stock.
Qed.

End ChartFacts.


Lemma watchlist_chart_shows_priced_holdings_witness :
  exists stocks' m' top5,
    demo_generate_chart scenario demo_machine = (Ok tt, stocks', m')
    /\ Forall2 same_entry scenario stocks'
    /\ portfolio_csv (runtime m') = portfolio_csv (runtime demo_machine)
    /\ dict_get "output/chart.png" (charts m')
       = Some (WatchlistChart (map fst top5) (map snd top5))
    /\ (List.length top5 <= 5)%nat
    /\ (forall ticker price,
           In (ticker, price) top5 ->
           exists stock, In (ticker, stock) stocks' /\ held_price stock = Some price)
    /\ ((List.length (priced_holdings stocks') <= 5)%nat ->
        forall ticker stock price,
          In (ticker, stock) stocks' -> held_price stock = Some price ->
          In (ticker, price) top5).
Proof.
  apply (watchlist_chart_shows_priced_holdings demo_history demo_str_exn
           demo_sorted scenario demo_machine demo_sorted_perm).
  discriminate.
Defined.

(** On the scenario the chart has the one bar of AAA; BBB has no price. *)
Example watchlist_chart_of_scenario :
  demo_generate_chart scenario demo_machine
  = (Ok tt, scenario,
     mkMachine (print "Saved bar chart to 'output/chart.png'." demo_runtime)
       [("output/chart.png", WatchlistChart ["AAA"] [10%float])]).
Proof. reflexivity. Qed.

(* ===================================================================== *)
(** * The command loop *)
(* ===================================================================== *)

Lemma dict_set_same_entries (key : str) (stock stock' : Stock) (stocks : Portfolio) :
  dict_get key stocks = Some stock ->
  symbol stock' = symbol stock ->
  quantity stock' = quantity stock ->
  Forall2 same_entry stocks (dict_set key stock' stocks).
Proof.
  intros Hget Hs Hq. induction stocks as [| [k v] rest IH]; [discriminate |].
  cbn in Hget |- *. destruct (String.eqb k key).
  - injection Hget as ->. constructor; [now repeat split | apply same_entries_refl].
  - constructor; [now repeat split | now apply IH].
Qed.

Section CommandLoopFacts.

Context {Provider : Type}.
Variable history : str -> str -> str -> Provider -> res DataFrame * Provider.
Variables format_2f format_plus_2f str_float : float -> str.
Variable str_exn : exn -> str.
Variable str_frame : DataFrame -> str.
Variable sorted_by_price : list (str * float) -> list (str * float).

Local Abbreviation turn' :=
  (turn history format_2f format_plus_2f str_float str_exn str_frame sorted_by_price).
Local Abbreviation main_loop' :=
  (main_loop history format_2f format_plus_2f str_float str_exn str_frame
     sorted_by_price).
Local Abbreviation main' :=
  (main history format_2f format_plus_2f str_float str_exn str_frame sorted_by_price).

Implicit Types (stdin : list str) (stocks : Portfolio) (m : Machine Provider).

Lemma plot_history_frame (self : Stock) m :
  outcome (plot_history history str_exn str_frame self m) = Ok tt
  /\ symbol (self_after (plot_history history str_exn str_frame self m)) = symbol self
  /\ quantity (self_after (plot_history history str_exn str_frame self m))
     = quantity self
  /\ portfolio_csv (runtime (rest_after (plot_history history str_exn str_frame self m)))
     = portfolio_csv (runtime m).
Proof.
  unfold plot_history. destruct (data self) as [table |] eqn:Hd.
  - rewrite (get_data_cached _ _ _ _ _ _ _ Hd). now cbn.
  - rewrite (get_data_fetch _ _ _ _ _ _ Hd).
    destruct (history (symbol self) "1mo" "1d" (provider (runtime m)))
      as [[table | e] pv]; now cbn.
Qed.

Lemma Portfolio_str_frame stocks (rt : Runtime Provider) :
  Forall2 same_entry stocks
    (self_after (Portfolio_str history format_2f format_plus_2f str_float str_exn
                   stocks rt))
  /\ portfolio_csv
       (rest_after (Portfolio_str history format_2f format_plus_2f str_float str_exn
                      stocks rt))
     = portfolio_csv rt.
Proof.
  pose proof (for_items_frame
                (table_row history format_2f format_plus_2f str_float str_exn)
                stocks rt
                (table_row_frame history format_2f format_plus_2f str_float str_exn))
    as H.
  unfold Portfolio_str.
  destruct (for_items (table_row history format_2f format_plus_2f str_float str_exn)
              stocks rt) as [[[lines | e] stocks'] rt']; exact H.
Qed.

Lemma add_stock_keeps (ticker : str) (qty : Z) stocks (rt : Runtime Provider) :
  upper ticker = ticker ->
  outcome (add_stock history str_exn ticker qty stocks rt) = Ok tt
  /\ (ledger_ok stocks ->
      ledger_ok (self_after (add_stock history str_exn ticker qty stocks rt)))
  /\ (key_is_symbol stocks ->
      key_is_symbol (self_after (add_stock history str_exn ticker qty stocks rt)))
  /\ portfolio_csv (rest_after (add_stock history str_exn ticker qty stocks rt))
     = portfolio_csv rt.
Proof.
  intros Hup.
  destruct (add_stock_shape history str_exn ticker qty stocks rt)
    as (stocks' & rt' & -> & Hf & Hshape).
  unfold outcome, self_after, rest_after. cbn [fst snd].
  refine (conj eq_refl (conj _ (conj _ Hf))).
  - intros [Hnd Hq]. destruct Hshape as [-> | (holding & -> & _ & Hqty)]; [now split |].
    split; [now apply dict_set_NoDup |].
    apply Forall_dict_set; [exact Hq |]. cbn. rewrite Hqty. discriminate.
  - intros Hkeys. destruct Hshape as [-> | (holding & -> & Hs & _)]; [exact Hkeys |].
    apply Forall_dict_set; [exact Hkeys |]. cbn. rewrite Hs, Hup. now split.
Qed.

Lemma carries_on_same (e : option ending) stdin stdin' stocks stocks' m m' :
  (List.length stdin' <= List.length stdin)%nat ->
  Forall2 same_entry stocks stocks' ->
  portfolio_csv (runtime m') = portfolio_csv (runtime m) ->
  e <> Some Exited ->
  carries_on (List.length stdin) stocks m (e, (stdin', stocks', m')).
Proof.
  intros Hlen Hsame Hfile He. unfold carries_on.
  refine (conj Hlen (conj _ (conj _ _))).
  - now apply same_entries_ledger_ok.
  - now apply same_entries_key_is_symbol.
  - rewrite Hfile. destruct e as [[] |]; try reflexivity. now destruct He.
Qed.

Lemma carries_on_from (bound : nat) stocks m m0
  (result : option ending * session Provider) :
  portfolio_csv (runtime m0) = portfolio_csv (runtime m) ->
  carries_on bound stocks m0 result -> carries_on bound stocks m result.
Proof.
  destruct result as [e [[stdin' stocks'] m']]. unfold carries_on.
  intros <- H. exact H.
Qed.

Lemma do_add_carries_on stdin stocks m :
  carries_on (List.length stdin) stocks m (do_add history str_exn stdin stocks m).
Proof.
  unfold do_add, input.
  destruct stdin as [| typed stdin].
  { apply carries_on_same; [apply Nat.le_refl | apply same_entries_refl | reflexivity
                           | discriminate]. }
  destruct stdin as [| number stdin].
  { apply carries_on_same; [cbn; lia | apply same_entries_refl | reflexivity
                           | discriminate]. }
  destruct (int_of_str number) as [qty | e].
  2: { apply carries_on_same; [cbn; lia | apply same_entries_refl | reflexivity
                              | discriminate]. }
  cbn [runtime with_runtime].
  match goal with
  | |- context [add_stock _ _ ?t ?q ?s ?r] =>
      destruct (add_stock_keeps t q s r (read_ticker_upper typed))
        as (Hok & Hledger & Hkeys & Hfile);
      destruct (add_stock history str_exn t q s r) as [[r1 stocks1] rt1]
  end.
  unfold outcome, self_after, rest_after in *. cbn [fst snd] in *. subst r1.
  unfold carries_on. cbn [runtime with_runtime].
  refine (conj _ (conj Hledger (conj Hkeys Hfile))). cbn. lia.
Qed.

Lemma do_remove_carries_on stdin stocks m :
  carries_on (List.length stdin) stocks m (do_remove stdin stocks m).
Proof.
  unfold do_remove, input.
  destruct stdin as [| typed stdin].
  { apply carries_on_same; [apply Nat.le_refl | apply same_entries_refl | reflexivity
                           | discriminate]. }
  cbn [runtime with_runtime]. unfold remove_stock.
  destruct (dict_contains (read_ticker typed) stocks).
  - unfold carries_on. cbn [runtime with_runtime].
    refine (conj _ (conj _ (conj _ eq_refl))).
    + cbn. lia.
    + intros [Hnd Hq]. split; [now apply dict_pop_NoDup | now apply Forall_dict_pop].
    + intros Hkeys. now apply Forall_dict_pop.
  - apply carries_on_same; [cbn; lia | apply same_entries_refl | reflexivity
                           | discriminate].
Qed.

Lemma do_view_carries_on stdin stocks m :
  carries_on (List.length stdin) stocks m
    (do_view history format_2f format_plus_2f str_float str_exn stdin stocks m).
Proof.
  unfold do_view. destruct (Portfolio_str_frame stocks (runtime m)) as [Hsame Hf].
  destruct (Portfolio_str history format_2f format_plus_2f str_float str_exn
              stocks (runtime m)) as [[[text | e] stocks'] rt'];
    unfold self_after, rest_after in *; cbn [fst snd] in *;
    (apply carries_on_same; [apply Nat.le_refl | exact Hsame | exact Hf | discriminate]).
Qed.

Lemma do_history_carries_on stdin stocks m :
  carries_on (List.length stdin) stocks m
    (do_history history str_exn str_frame stdin stocks m).
Proof.
  unfold do_history, input.
  destruct stdin as [| typed stdin].
  { apply carries_on_same; [apply Nat.le_refl | apply same_entries_refl | reflexivity
                           | discriminate]. }
  destruct (dict_get (read_ticker typed) stocks) as [stock |] eqn:Hget.
  - match goal with
    | |- context [plot_history _ _ _ ?s ?m0] =>
        destruct (plot_history_frame s m0) as (Hok & Hs & Hq & Hf);
        destruct (plot_history history str_exn str_frame s m0) as [[r stock'] m']
    end.
    unfold outcome, self_after, rest_after in *. cbn [fst snd] in *. subst r.
    apply carries_on_same; [cbn; lia | | exact Hf | discriminate].
    exact (dict_set_same_entries _ _ _ _ Hget Hs Hq).
  - match goal with
    | |- context [plot_history _ _ _ ?s ?m0] =>
        destruct (plot_history_frame s m0) as (Hok & _ & _ & Hf);
        destruct (plot_history history str_exn str_frame s m0) as [[r stock'] m']
    end.
    unfold outcome, self_after, rest_after in *. cbn [fst snd] in *. subst r.
    apply carries_on_same; [cbn; lia | apply same_entries_refl | exact Hf
                           | discriminate].
Qed.

Lemma do_chart_carries_on stdin stocks m :
  carries_on (List.length stdin) stocks m
    (do_chart history str_exn sorted_by_price stdin stocks m).
Proof.
  unfold do_chart.
  destruct (generate_chart_frame history str_exn sorted_by_price stocks m)
    as (Hok & Hsame & Hf).
  destruct (generate_chart history str_exn sorted_by_price stocks m)
    as [[r stocks'] m'].
  unfold outcome, self_after, rest_after in *. cbn [fst snd] in *. subst r.
  apply carries_on_same; [apply Nat.le_refl | exact Hsame | exact Hf | discriminate].
Qed.

Lemma do_exit_carries_on stdin stocks m :
  carries_on (List.length stdin) stocks m
    (do_exit history str_exn sorted_by_price stdin stocks m).
Proof.
  unfold do_exit, save_to_csv.
  match goal with
  | |- context [generate_chart _ _ _ ?s ?m0] =>
      destruct (generate_chart_frame history str_exn sorted_by_price s m0)
        as (Hok & Hsame & Hf);
      destruct (generate_chart history str_exn sorted_by_price s m0)
        as [[r stocks'] m']
  end.
  unfold outcome, self_after, rest_after in *. cbn [fst snd] in *. subst r.
  unfold carries_on. refine (conj (Nat.le_refl _) (conj _ (conj _ _))).
  - now apply same_entries_ledger_ok.
  - now apply same_entries_key_is_symbol.
  - cbn [runtime with_runtime portfolio_csv print set_portfolio_csv].
    fold (saved_records stocks).
    now rewrite (same_entries_saved_records _ _ Hsame).
Qed.

(** One turn: it ends the run or goes on with strictly less input. *)
Lemma turn_carries_on stdin stocks m :
  carries_on (Nat.pred (List.length stdin)) stocks m (turn' stdin stocks m)
  /\ (fst (turn' stdin stocks m) = None -> stdin <> []).
Proof.
  unfold turn, input.
  destruct stdin as [| user_choice stdin].
  { split; [| discriminate].
    apply (carries_on_same (Some EndOfInput) []);
      [apply Nat.le_refl | apply same_entries_refl | reflexivity | discriminate]. }
  cbn [List.length Nat.pred].
  split; [| discriminate].
  destruct (negb (existsb (String.eqb (lower user_choice)) choices)).
  { apply carries_on_same; [apply Nat.le_refl | apply same_entries_refl | reflexivity
                           | discriminate]. }
  match goal with
  | |- context [do_add _ _ _ _ ?m0] => apply (carries_on_from _ _ _ m0 _ eq_refl)
  end.
  destruct (String.eqb (lower user_choice) "add"); [apply do_add_carries_on |].
  destruct (String.eqb (lower user_choice) "remove"); [apply do_remove_carries_on |].
  destruct (String.eqb (lower user_choice) "view"); [apply do_view_carries_on |].
  destruct (String.eqb (lower user_choice) "history"); [apply do_history_carries_on |].
  destruct (String.eqb (lower user_choice) "chart"); [apply do_chart_carries_on |].
  apply do_exit_carries_on.
Qed.

(** The loop, given one turn more than there are lines: it ends, and what
    the turns keep it keeps. *)
Lemma main_loop_ends (turns : nat) stdin stocks m :
  (List.length stdin < turns)%nat ->
  exists e state,
    main_loop' turns stdin stocks m = Some (e, state)
    /\ carries_on (List.length stdin) stocks m (Some e, state).
Proof.
  revert stdin stocks m. induction turns as [| turns IH]; intros stdin stocks m Hlen;
    [lia |].
  cbn [main_loop].
  destruct (turn_carries_on stdin stocks m) as [Hturn Hmore].
  destruct (turn' stdin stocks m) as [[e |] [[stdin1 stocks1] m1]].
  - exists e, (stdin1, stocks1, m1). split; [reflexivity |].
    destruct Hturn as (Hb & Hrest). split; [lia | exact Hrest].
  - destruct Hturn as (Hb & Hledger & Hkeys & Hfile).
    specialize (Hmore eq_refl).
    assert (List.length stdin1 < List.length stdin)%nat as Hless
        by (destruct stdin; [now destruct Hmore | cbn in *; lia]).
    destruct (IH stdin1 stocks1 m1 ltac:(lia))
      as (e & [[stdin2 stocks2] m2] & Hloop & Hb2 & Hledger2 & Hkeys2 & Hfile2).
    exists e, (stdin2, stocks2, m2). split; [exact Hloop |].
    refine (conj _ (conj _ (conj _ _))); [lia | auto | auto |].
    rewrite Hfile2. destruct e; congruence.
Qed.

Lemma Portfolio_init_keeps_the_file (rt : Runtime Provider) :
  portfolio_csv (snd (Portfolio_init str_exn rt)) = portfolio_csv rt.
Proof.
  unfold Portfolio_init.
  destruct (portfolio_csv rt) as [[| fieldnames rows] |] eqn:Ef; cbn;
    try now rewrite Ef.
  destruct (load_rows fieldnames rows []) as [loaded [e |]]; cbn; now rewrite Ef.
Qed.

Lemma Portfolio_init_of_saved stocks (rt : Runtime Provider) :
  ledger_ok stocks ->
  portfolio_csv rt = Some (["Ticker"; "Quantity"] :: saved_records stocks) ->
  fst (Portfolio_init str_exn rt) = map reloaded stocks.
Proof.
  intros [Hnd Hq] Hfile. unfold Portfolio_init. rewrite Hfile.
  now rewrite (load_rows_saved_records stocks [] Hnd Hq).
Qed.

(** A run of [main]: how it ends, and with what ledger and file. *)
Lemma main_ends_with stdin m :
  exists e stdin' stocks' m',
    main' stdin m = Some (e, (stdin', stocks', m'))
    /\ ledger_ok stocks'
    /\ (upper_case_file (portfolio_csv (runtime m)) -> key_is_symbol stocks')
    /\ portfolio_csv (runtime m') =
       match e with
       | Exited => Some (["Ticker"; "Quantity"] :: saved_records stocks')
       | _ => portfolio_csv (runtime m)
       end.
Proof.
  unfold main.
  pose proof (step_ledger_ok history str_exn Load ([], runtime m)
                (conj (NoDup_nil _) (Forall_nil _))) as Hledger0.
  pose proof (fun H => proj1 (step_well_keyed history str_exn Load ([], runtime m) I
                (conj (Forall_nil _) H))) as Hkeys0.
  pose proof (Portfolio_init_keeps_the_file (runtime m)) as Hfile0.
  cbn [step fst snd] in Hledger0, Hkeys0.
  destruct (Portfolio_init str_exn (runtime m)) as [stocks rt].
  cbn [fst snd] in Hledger0, Hkeys0, Hfile0.
  match goal with
  | |- context [main_loop _ _ _ _ _ _ _ ?t ?i ?s ?m0] =>
      destruct (main_loop_ends t i s m0 (Nat.lt_succ_diag_r _))
        as (e & [[stdin' stocks'] m'] & Hloop & _ & Hledger & Hkeys & Hfile)
  end.
  exists e, stdin', stocks', m'. rewrite Hloop.
  refine (conj eq_refl (conj (Hledger Hledger0) (conj _ _))).
  - intros Hup. apply Hkeys, Hkeys0, Hup.
  - rewrite Hfile. cbn [runtime with_runtime portfolio_csv print]. rewrite Hfile0.
    reflexivity.
Qed.

(** X18. [main] ends on every input: by the exit command, by an exception, or
    at the end of the input. With one turn more than there are lines of
    input it never runs out of turns. *)
Theorem main_always_ends stdin m :
  exists e state,
    main history format_2f format_plus_2f str_float str_exn str_frame sorted_by_price
      stdin m
    = Some (e, state).
Proof.
  destruct (main_ends_with stdin m) as (e & stdin' & stocks' & m' & H & _).
  now exists e, (stdin', stocks', m').
Qed.

(** X19. However a run of [main] ends, the ledger it ends with is a dictionary
    whose holdings have their quantity set; and when the [Ticker] fields
    of the file it started from are upper case (as in every file the
    program wrote), each key is the upper-case symbol of its holding. *)
Theorem main_keeps_the_ledger_well_keyed stdin m :
  ledger_ok (final_ledger (main' stdin m))
  /\ (upper_case_file (portfolio_csv (runtime m)) ->
      key_is_symbol (final_ledger (main' stdin m))).
Proof.
  destruct (main_ends_with stdin m)
    as (e & stdin' & stocks' & m' & -> & Hledger & Hkeys & _).
  cbn [final_ledger]. now split.
Qed.

(** X20. Only the exit writes the file: a run that ends by exit leaves the
    records of its final ledger in the file, and a run that ends any other
    way (an exception such as a quantity that is no integer, or the end of
    the input) leaves the file it found, so what was added or removed in
    that run is not saved. *)
Theorem only_the_exit_saves stdin m :
  portfolio_csv (final_runtime m (main' stdin m)) =
  match ended (main' stdin m) with
  | Some Exited =>
      Some (["Ticker"; "Quantity"] :: saved_records (final_ledger (main' stdin m)))
  | _ => portfolio_csv (runtime m)
  end.
Proof.
  destruct (main_ends_with stdin m)
    as (e & stdin' & stocks' & m' & -> & _ & _ & Hfile).
  cbn [final_runtime final_ledger ended option_map fst]. rewrite Hfile.
  now destruct e.
Qed.

(** X21. A run that ends by exit can be taken up again: starting the program
    anew loads the holdings the run ended with, key by key and quantity by
    quantity, in the same order. *)
Theorem restart_after_exit_restores_the_holdings stdin m :
  ended (main' stdin m) = Some Exited ->
  holdings (fst (Portfolio_init str_exn (final_runtime m (main' stdin m))))
  = holdings (final_ledger (main' stdin m)).
Proof.
  destruct (main_ends_with stdin m)
    as (e & stdin' & stocks' & m' & -> & Hledger & _ & Hfile).
  cbn [final_runtime final_ledger ended option_map fst]. intros He.
  injection He as ->.
  rewrite (Portfolio_init_of_saved stocks' (runtime m') Hledger Hfile).
  unfold holdings. rewrite map_map. reflexivity.
Qed.

End CommandLoopFacts.

Lemma restart_after_exit_restores_the_holdings_witness :
  holdings (fst (Portfolio_init demo_str_exn
                   (final_runtime demo_machine
                      (demo_main ["add"; " aapl "; "3"; "add"; "aaa"; "2"; "q"]
                         demo_machine))))
  = [("AAPL", Some 3%Z); ("AAA", Some 2%Z)].
Proof.
  etransitivity.
  - apply (restart_after_exit_restores_the_holdings demo_history demo_format
             demo_format demo_format demo_str_exn demo_str_frame demo_sorted
             ["add"; " aapl "; "3"; "add"; "aaa"; "2"; "q"] demo_machine).
    reflexivity.
  - reflexivity.
Defined.
